(** * Daily Routine task manager: the store classes of the main script

    A shallow embedding of the state-holding classes of the page script
    ([TaskManager], [SettingsManager], [NotificationManager]) and of the few
    JavaScript primitives they rest on, followed by the properties the
    specification states about them.

    Conventions.
    - A JavaScript number that counts or identifies something ([Date.now()],
      an array length) is an integer of [Z] or [nat]; the one place where the
      script computes with fractions ([getCompletionPercentage]) is carried
      out in IEEE-754 binary64, the kernel's [float].
    - A JavaScript string is a [string]; a character stands for one code unit.
    - The clock is read by the caller: a method that evaluates [Date.now()]
      or [new Date().toISOString()] takes the value read as an argument.
    - [JSON.stringify] and [JSON.parse] are the runtime's; the classes are
      parametric in them (class [Json]).  A parse that throws is [None]. *)

From Stdlib Require Import ZArith String Ascii List Bool Lia Floats.
From stdpp Require Import base option list gmap strings.
From Stdlib Require Import QArith Qround.
Close Scope Q_scope.
Import ListNotations.
Open Scope string_scope.
Open Scope list_scope.

(** ** JavaScript primitives *)

Module JS.

(** Truthiness of a string: only the empty string is falsy. *)
Definition truthy (s : string) : bool :=
  match s with
  | EmptyString => false
  | String _ _ => true
  end.

(** [x || d] where [x] is [undefined] ([None]) or a string. *)
Definition or_else (x : option string) (d : string) : string :=
  match x with
  | Some s => if truthy s then s else d
  | None => d
  end.

(** [x || d] where [x] is [undefined] or an array: an array is truthy,
    the empty one too. *)
Definition or_else_array {A : Type} (x : option (list A)) (d : list A)
  : list A :=
  match x with
  | Some l => l
  | None => d
  end.

(** The code unit of a character. *)
Definition code_unit (c : ascii) : N := N_of_ascii c.

(** [x < y] on two strings (the IsLessThan comparison of the language):
    the first position where the code units differ decides; when one
    string is a prefix of the other, the shorter one is the smaller. *)
Fixpoint string_lt (x y : string) : bool :=
  match x, y with
  | EmptyString, EmptyString => false
  | EmptyString, String _ _ => true
  | String _ _, EmptyString => false
  | String cx x', String cy y' =>
      if (code_unit cx <? code_unit cy)%N then true
      else if (code_unit cy <? code_unit cx)%N then false
      else string_lt x' y'
  end.

(** [x > y] is [y < x]. *)
Definition string_gt (x y : string) : bool := string_lt y x.

(** [x === y] on two strings. *)
Definition string_strict_eq (x y : string) : bool := String.eqb x y.

(** [s.split(sep)[0]] for a one-character separator: the part of [s]
    before the first [sep], all of [s] when there is none. *)
Fixpoint split_first (sep : ascii) (s : string) : string :=
  match s with
  | EmptyString => EmptyString
  | String c s' =>
      if Ascii.eqb c sep then EmptyString else String c (split_first sep s')
  end.

(** The number of an array length. *)
Definition number_of_nat (n : nat) : float :=
  PrimFloat.of_uint63 (Uint63.of_Z (Z.of_nat n)).

(** The number of an integer below 2^53 in absolute value. *)
Definition number_of_Z (z : Z) : float :=
  match z with
  | Z0 => 0%float
  | Zpos _ => PrimFloat.of_uint63 (Uint63.of_Z z)
  | Zneg _ => PrimFloat.opp (PrimFloat.of_uint63 (Uint63.of_Z (- z)))
  end.

(** [Math.round x]: the integral number closest to [x], the one closer to
    plus infinity when two are equally close; NaN, the infinities and the
    zeros are returned as they are, and a negative [x] of at most one half
    in absolute value gives the negative zero.  A finite [x] is
    [m * 2^e] up to its sign: with [e >= 0] it is integral already, and
    otherwise [floor (x + 1/2)] is computed exactly on integers. *)
Definition Math_round (x : float) : float :=
  match Prim2SF x with
  | S754_finite s m e =>
      if (0 <=? e)%Z then x
      else
        let scale := Z.pow 2 (- e) in
        let sm := if s then Z.neg m else Z.pos m in
        let r := Z.div (2 * sm + scale) (2 * scale) in
        if (r =? 0)%Z then (if s then (-0)%float else 0%float)
        else number_of_Z r
  | _ => x
  end.

End JS.

(** ** Data model *)

(** A task, as [addTask] builds it. *)
Module Task.
Record t : Type := mk {
  id : Z;
  title : string;
  description : string;
  category : string;
  priority : string;
  dueDate : string;
  dueTime : string;
  reminder : string;
  repeat : string;
  completed : bool;
  subtasks : list string;
  createdAt : string
}.

Definition set_completed (b : bool) (x : t) : t :=
  mk (id x) (title x) (description x) (category x) (priority x) (dueDate x)
     (dueTime x) (reminder x) (repeat x) b (subtasks x) (createdAt x).
End Task.

(** The argument of [addTask]: the object the new-task form builds.  Every
    property but [title] may be missing ([None] is [undefined]).  The object
    may carry properties [addTask] never reads; [completed] stands for
    them. *)
Module TaskData.
Record t : Type := mk {
  title : string;
  description : option string;
  category : option string;
  priority : option string;
  dueDate : option string;
  dueTime : option string;
  reminder : option string;
  repeat : option string;
  subtasks : option (list string);
  completed : option bool
}.
End TaskData.

(** The second argument of [updateTask]: the properties to overwrite. *)
Module TaskUpdates.
Record t : Type := mk {
  id : option Z;
  title : option string;
  description : option string;
  category : option string;
  priority : option string;
  dueDate : option string;
  dueTime : option string;
  reminder : option string;
  repeat : option string;
  completed : option bool;
  subtasks : option (list string);
  createdAt : option string
}.

(** [Object.assign(task, updates)]: each property of [updates] replaces
    the task's. *)
Definition assign (u : t) (x : Task.t) : Task.t :=
  Task.mk
    (default (Task.id x) (id u))
    (default (Task.title x) (title u))
    (default (Task.description x) (description u))
    (default (Task.category x) (category u))
    (default (Task.priority x) (priority u))
    (default (Task.dueDate x) (dueDate u))
    (default (Task.dueTime x) (dueTime u))
    (default (Task.reminder x) (reminder u))
    (default (Task.repeat x) (repeat u))
    (default (Task.completed x) (completed u))
    (default (Task.subtasks x) (subtasks u))
    (default (Task.createdAt x) (createdAt u)).
End TaskUpdates.

(** An entry of the notification history. *)
Module Notification.
Record t : Type := mk {
  id : Z;
  message : string;
  type : string;
  timestamp : string;
  read : bool
}.

Definition set_read (b : bool) (n : t) : t :=
  mk (id n) (message n) (type n) (timestamp n) b.
End Notification.

(** A value of the settings object. *)
Inductive SettingValue : Type :=
| SString (s : string)
| SBool (b : bool).

(** An element of class [notification_badge]: the number written into its
    text and its [display] style. *)
Record Badge : Type := mkBadge {
  textContent : option nat;
  display : string
}.

(** The runtime's JSON functions at one type. *)
Class Json (A : Type) : Type := {
  JSON_stringify : A -> string;
  JSON_parse : string -> option A
}.

(** ** The page's state *)

(** The arrays the manager objects hold, the origin's [localStorage] with
    the sequence of [setItem] calls made on it (latest first), and the badge
    elements of the document. *)
Record World : Type := mkWorld {
  tasks : list Task.t;
  notifications : list Notification.t;
  localStorage : gmap string string;
  setItem_calls : list (string * string);
  badges : list Badge
}.

(** Methods run in the state monad of the page. *)
Definition Method (A : Type) : Type := World -> A * World.

#[global] Instance Method_ret : MRet Method := fun A a w => (a, w).
#[global] Instance Method_bind : MBind Method :=
  fun A B f m w => let '(a, w') := m w in f a w'.

Definition get_tasks : Method (list Task.t) := fun w => (tasks w, w).
Definition set_tasks (l : list Task.t) : Method unit :=
  fun w => (tt, mkWorld l (notifications w) (localStorage w)
                        (setItem_calls w) (badges w)).
Definition get_notifications : Method (list Notification.t) :=
  fun w => (notifications w, w).
Definition set_notifications (l : list Notification.t) : Method unit :=
  fun w => (tt, mkWorld (tasks w) l (localStorage w)
                        (setItem_calls w) (badges w)).
Definition set_badges (l : list Badge) : Method unit :=
  fun w => (tt, mkWorld (tasks w) (notifications w) (localStorage w)
                        (setItem_calls w) l).

(** [localStorage.getItem(key)]: [None] is [null]. *)
Definition getItem (key : string) : Method (option string) :=
  fun w => (localStorage w !! key, w).

(** [localStorage.setItem(key, value)]. *)
Definition setItem (key value : string) : Method unit :=
  fun w => (tt, mkWorld (tasks w) (notifications w)
                        (<[key := value]> (localStorage w))
                        ((key, value) :: setItem_calls w) (badges w)).

(** [stored ? JSON.parse(stored) : fallback]: [null] and the empty string
    are falsy. *)
Definition parse_or {A : Type} `{Json A} (stored : option string)
    (fallback : A) : option A :=
  match stored with
  | Some s => if JS.truthy s then JSON_parse s else Some fallback
  | None => Some fallback
  end.

(** ** TaskManager *)

Module TaskManager.
Section Methods.
Context `{Json (list Task.t)}.

(** [loadTasks()]: the stored array, or the empty one when nothing is
    stored. *)
Definition loadTasks : Method (option (list Task.t)) :=
  stored ← getItem "tasks";
  mret (parse_or stored []).

(** [constructor()]: [None] when the stored text does not parse. *)
Definition constructor (w : World) : option World :=
  let '(loaded, w') := loadTasks w in
  match loaded with
  | Some l => Some (snd (set_tasks l w'))
  | None => None
  end.

Definition saveTasks : Method unit :=
  l ← get_tasks;
  setItem "tasks" (JSON_stringify l).

(** [addTask(taskData)], with [now] the value of [Date.now()] and [iso]
    that of [new Date().toISOString()]. *)
Definition addTask (now : Z) (iso : string) (taskData : TaskData.t)
  : Method Task.t :=
  let task :=
    Task.mk
      now
      (TaskData.title taskData)
      (JS.or_else (TaskData.description taskData) "")
      (JS.or_else (TaskData.category taskData) "")
      (JS.or_else (TaskData.priority taskData) "medium")
      (JS.or_else (TaskData.dueDate taskData) "")
      (JS.or_else (TaskData.dueTime taskData) "")
      (JS.or_else (TaskData.reminder taskData) "none")
      (JS.or_else (TaskData.repeat taskData) "none")
      false
      (JS.or_else_array (TaskData.subtasks taskData) [])
      iso in
  l ← get_tasks;
  set_tasks (l ++ [task]);;
  saveTasks;;
  mret task.

Definition deleteTask (taskId : Z) : Method unit :=
  l ← get_tasks;
  set_tasks (List.filter (fun task => negb (Task.id task =? taskId)%Z) l);;
  saveTasks.

(** [updateTask(taskId, updates)].  [find] gives the first task with the
    id, the object the array holds at that index: the assignment is
    seen through the array.  [None] is [undefined]. *)
Definition updateTask (taskId : Z) (updates : TaskUpdates.t)
  : Method (option Task.t) :=
  l ← get_tasks;
  match list_find (fun t => Task.id t = taskId) l with
  | Some (i, task) =>
      let task' := TaskUpdates.assign updates task in
      set_tasks (<[i := task']> l);;
      saveTasks;;
      mret (Some task')
  | None => mret None
  end.

Definition toggleTask (taskId : Z) : Method (option Task.t) :=
  l ← get_tasks;
  match list_find (fun t => Task.id t = taskId) l with
  | Some (i, task) =>
      let task' := Task.set_completed (negb (Task.completed task)) task in
      set_tasks (<[i := task']> l);;
      saveTasks;;
      mret (Some task')
  | None => mret None
  end.
End Methods.

(** The queries read [this.tasks] and change nothing. *)

Definition getAllTasks (w : World) : list Task.t := tasks w.

Definition getCompletedTasks (w : World) : list Task.t :=
  List.filter (fun task => Task.completed task) (tasks w).

Definition getPendingTasks (w : World) : list Task.t :=
  List.filter (fun task => negb (Task.completed task)) (tasks w).

(** [getTodayTasks()], with [iso] the value of
    [new Date().toISOString()]. *)
Definition getTodayTasks (iso : string) (w : World) : list Task.t :=
  let today := JS.split_first "T" iso in
  List.filter (fun task => JS.string_strict_eq (Task.dueDate task) today)
              (tasks w).

Definition getUpcomingTasks (iso : string) (w : World) : list Task.t :=
  let today := JS.split_first "T" iso in
  List.filter (fun task => JS.string_gt (Task.dueDate task) today)
              (tasks w).

Definition getCompletionPercentage (w : World) : float :=
  if (length (tasks w) =? 0)%nat then 0%float
  else
    JS.Math_round
      (JS.number_of_nat (length (getCompletedTasks w))
       / JS.number_of_nat (length (tasks w)) * 100)%float.

Definition getRemainingTasksCount (w : World) : nat :=
  length (getPendingTasks w).

Definition getTasksByCategory (category : string) (w : World)
  : list Task.t :=
  List.filter (fun task => JS.string_strict_eq (Task.category task) category)
              (tasks w).

Definition getTasksByPriority (priority : string) (w : World)
  : list Task.t :=
  List.filter (fun task => JS.string_strict_eq (Task.priority task) priority)
              (tasks w).
End TaskManager.

(** ** SettingsManager *)

Module SettingsManager.
Definition getDefaultSettings : gmap string SettingValue :=
  <["darkMode" := SBool false]>
  (<["twoFactor" := SBool false]>
  (<["recurringTasks" := SBool true]>
  (<["sortBy" := SString "dueDate"]>
  (<["showCompletedTasks" := SBool true]>
  (<["soundEffects" := SBool true]>
  (<["emailReminders" := SBool false]>
  (<["pushNotifications" := SBool true]>
  (<["fontSize" := SString "medium"]>
  (<["theme" := SString "light"]> ∅))))))))).

Section Methods.
Context `{Json (gmap string SettingValue)}.

(** [loadSettings()]: the stored object, or the defaults when nothing
    is stored.  [None] when the stored text does not parse. *)
Definition loadSettings (w : World) : option (gmap string SettingValue) :=
  parse_or (localStorage w !! "settings") getDefaultSettings.

(** The manager object is its [settings] property: [constructor()]
    loads it. *)
Definition constructor (w : World) : option (gmap string SettingValue) :=
  loadSettings w.
End Methods.

Definition getSetting (key : string) (settings : gmap string SettingValue)
  : option SettingValue :=
  settings !! key.

Definition getAllSettings (settings : gmap string SettingValue)
  : gmap string SettingValue :=
  settings.
End SettingsManager.

(** ** NotificationManager *)

Module NotificationManager.
Definition getUnreadCount (w : World) : nat :=
  length (List.filter (fun n => negb (Notification.read n))
                      (notifications w)).

(** [updateNotificationBadge()]: every badge shows the unread count and
    is hidden when the count is zero. *)
Definition updateNotificationBadge : Method unit :=
  fun w =>
    let unreadCount := getUnreadCount w in
    set_badges
      (List.map
         (fun _ => mkBadge (Some unreadCount)
                           (if (0 <? unreadCount)%nat then "flex"
                            else "none"))
         (badges w)) w.

Section Methods.
Context `{Json (list Notification.t)}.

Definition loadNotifications : Method (option (list Notification.t)) :=
  stored ← getItem "notifications";
  mret (parse_or stored []).

Definition constructor (w : World) : option World :=
  let '(loaded, w') := loadNotifications w in
  match loaded with
  | Some l => Some (snd (set_notifications l w'))
  | None => None
  end.

Definition saveNotifications : Method unit :=
  l ← get_notifications;
  setItem "notifications" (JSON_stringify l).

(** [addNotification(message, type = 'info')], with [now] the value of
    [Date.now()] and [iso] that of [new Date().toISOString()]; a
    missing [type] is [None]. *)
Definition addNotification (now : Z) (iso : string) (message : string)
    (type : option string) : Method unit :=
  let notification :=
    Notification.mk now message (default "info" type) iso false in
  l ← get_notifications;
  set_notifications (notification :: l);;
  l ← get_notifications;
  (if (50 <? length l)%nat then set_notifications (take 50 l)
   else mret tt);;
  saveNotifications;;
  updateNotificationBadge.

Definition markAsRead (id : Z) : Method unit :=
  l ← get_notifications;
  match list_find (fun n => Notification.id n = id) l with
  | Some (i, notification) =>
      set_notifications (<[i := Notification.set_read true notification]> l);;
      saveNotifications;;
      updateNotificationBadge
  | None => mret tt
  end.

Definition markAllAsRead : Method unit :=
  l ← get_notifications;
  set_notifications (List.map (Notification.set_read true) l);;
  saveNotifications;;
  updateNotificationBadge.
End Methods.

Definition getAllNotifications (w : World) : list Notification.t :=
  notifications w.
End NotificationManager.

(** ** UserManager *)

(** The user record; the counts and rates are whole numbers. *)
Module User.
Record t : Type := mk {
  name : string;
  email : string;
  avatar : string;
  joinDate : string;
  totalTasks : Z;
  completedTasks : Z;
  streak : Z;
  successRate : Z
}.
End User.

(** The manager object is its [user] property: a method takes it and
    returns it as the method leaves it. *)
Module UserManager.
Section Methods.
Context `{Json User.t}.

Definition saveUser (user : User.t) : Method unit :=
  setItem "user" (JSON_stringify user).

(** [updateStats()]: the two counts are read from the task manager. *)
Definition updateStats (user : User.t) : Method User.t :=
  fun w =>
    let user1 :=
      User.mk (User.name user) (User.email user) (User.avatar user)
              (User.joinDate user)
              (Z.of_nat (length (TaskManager.getAllTasks w)))
              (User.completedTasks user) (User.streak user)
              (User.successRate user) in
    let user2 :=
      User.mk (User.name user1) (User.email user1) (User.avatar user1)
              (User.joinDate user1) (User.totalTasks user1)
              (Z.of_nat (length (TaskManager.getCompletedTasks w)))
              (User.streak user1) (User.successRate user1) in
    let '(_, w') := saveUser user2 w in
    (user2, w').
End Methods.
End UserManager.

(** ** Functions of the page *)

Module Page.

(** The global [updateNotificationBadge()]: the first badge of the
    document, when there is one, shows the number of remaining tasks and is
    hidden when the number is zero. *)
Definition updateNotificationBadge : Method unit :=
  fun w =>
    let remainingCount := TaskManager.getRemainingTasksCount w in
    match badges w with
    | [] => (tt, w)
    | _ :: others =>
        set_badges
          (mkBadge (Some remainingCount)
                   (if (remainingCount =? 0)%nat then "none" else "flex")
             :: others) w
    end.

(** What [renderTaskList] puts in the task list: the message of the empty
    state, or the tasks it renders an item for, in order. *)
Inductive TaskListView : Type :=
| EmptyState (message : string)
| Items (items : list Task.t).

(** [renderTaskList(filter = 'all')] on a page that has a task list, as
    far as the choice of what is listed goes (the markup of an item, and
    the refresh of the dashboard that follows a non-empty list, are not
    modelled): a missing [filter] is [None]; [iso] is the clock string
    [getTodayTasks] or [getUpcomingTasks] reads. *)
Definition renderTaskList (filter : option string) (iso : string)
    (w : World) : TaskListView :=
  let filter := default "all" filter in
  let tasks :=
    if JS.string_strict_eq filter "today" then TaskManager.getTodayTasks iso w
    else if JS.string_strict_eq filter "upcoming"
         then TaskManager.getUpcomingTasks iso w
    else TaskManager.getAllTasks w in
  let tasks := List.filter (fun task => negb (Task.completed task)) tasks in
  if (length tasks =? 0)%nat then
    EmptyState
      (if JS.string_strict_eq filter "all" then "No pending tasks. Great job!"
       else if JS.string_strict_eq filter "today" then "No tasks for today!"
       else "No upcoming tasks!")
  else Items tasks.

(** [s.split(sep).pop()] for a one-character separator: the part of [s]
    after the last [sep]; [acc] is the part read since the last one. *)
Fixpoint split_pop (sep : ascii) (acc : string) (s : string) : string :=
  match s with
  | EmptyString => acc
  | String c s' =>
      if Ascii.eqb c sep then split_pop sep EmptyString s'
      else split_pop sep (acc +:+ String c EmptyString) s'
  end.

(** [checkAuthentication()], with [isLoggedIn] the session item ([None] is
    [null]) and [pathname] that of the location.  The result is what the
    function returns ([None] is [undefined]) and the address it sends the
    window to, if any. *)
Definition checkAuthentication (isLoggedIn : option string)
    (pathname : string) : option bool * option string :=
  let currentPage := JS.or_else (Some (split_pop "/" "" pathname)) "index.html" in
  if JS.string_strict_eq currentPage "login.html"
     || JS.string_strict_eq currentPage ""
  then (None, None)
  else if negb (match isLoggedIn with
                | Some s => JS.truthy s
                | None => false
                end)
  then (Some false, Some "login.html")
  else (Some true, None).

End Page.


(** * Vocabulary of the properties *)

(** ** Sequences of calls on the task manager *)

(** A call made on the task manager. *)
Inductive TaskOp : Type :=
| OpAdd (now : Z) (iso : string) (taskData : TaskData.t)
| OpDelete (taskId : Z).

Definition run_op `{Json (list Task.t)} (op : TaskOp) : Method unit :=
  match op with
  | OpAdd now iso taskData =>
      _ ← TaskManager.addTask now iso taskData; mret tt
  | OpDelete taskId => TaskManager.deleteTask taskId
  end.

Fixpoint run_ops `{Json (list Task.t)} (ops : list TaskOp) : Method unit :=
  match ops with
  | [] => mret tt
  | op :: rest => run_op op;; run_ops rest
  end.

(** The number of [addTask] calls of a sequence. *)
Definition add_calls (ops : list TaskOp) : nat :=
  length (List.filter (fun op => match op with
                                 | OpAdd _ _ _ => true
                                 | OpDelete _ => false
                                 end) ops).

(** The clock values its [addTask] calls read, in order. *)
Definition add_ids (ops : list TaskOp) : list Z :=
  omap (fun op => match op with
                  | OpAdd now _ _ => Some now
                  | OpDelete _ => None
                  end) ops.

(** A task with the id is present. *)
Definition has_id (taskId : Z) (l : list Task.t) : bool :=
  existsb (fun task => (Task.id task =? taskId)%Z) l.

(** The number of [deleteTask] calls of a sequence, run from [w], that
    find a task with their id. *)
Fixpoint successful_deletes `{Json (list Task.t)} (ops : list TaskOp)
    (w : World) : nat :=
  match ops with
  | [] => 0
  | op :: rest =>
      (match op with
       | OpDelete taskId => if has_id taskId (tasks w) then 1 else 0
       | OpAdd _ _ _ => 0
       end) + successful_deletes rest (snd (run_op op w))
  end.

(** The number of tasks the [deleteTask] calls of a sequence remove. *)
Fixpoint removed_tasks `{Json (list Task.t)} (ops : list TaskOp)
    (w : World) : nat :=
  match ops with
  | [] => 0
  | op :: rest =>
      (match op with
       | OpDelete taskId =>
           length (List.filter (fun task => (Task.id task =? taskId)%Z)
                               (tasks w))
       | OpAdd _ _ _ => 0
       end) + removed_tasks rest (snd (run_op op w))
  end.

(** ** Defaults, order of strings, percentages *)

(** [r] is the given property [x], or [d] when [x] is missing or empty. *)
Definition defaults_to (x : option string) (d r : string) : Prop :=
  (x = None -> r = d) /\
  (x = Some "" -> r = d) /\
  (forall s, x = Some s -> s <> "" -> r = s).

(** The lexicographic order of strings by code units: a proper prefix comes
    first, and otherwise the first differing position decides. *)
Inductive lex_lt : string -> string -> Prop :=
| lex_lt_prefix (c : ascii) (y : string) :
    lex_lt EmptyString (String c y)
| lex_lt_head (cx cy : ascii) (x y : string) :
    (JS.code_unit cx < JS.code_unit cy)%N ->
    lex_lt (String cx x) (String cy y)
| lex_lt_tail (c : ascii) (x y : string) :
    lex_lt x y ->
    lex_lt (String c x) (String c y).

(** What [Object.assign] leaves in a property: the given value when the
    source object carries the property, the old value otherwise. *)
Definition assigned {A : Type} (given : option A) (old new : A) : Prop :=
  match given with
  | Some v => new = v
  | None => new = old
  end.

(** Every property of [new] is the one of [updates] when [updates] carries
    it, and the one of [old] otherwise. *)
Definition overwritten_by (updates : TaskUpdates.t) (old new : Task.t)
  : Prop :=
  assigned (TaskUpdates.id updates) (Task.id old) (Task.id new) /\
  assigned (TaskUpdates.title updates) (Task.title old) (Task.title new) /\
  assigned (TaskUpdates.description updates)
           (Task.description old) (Task.description new) /\
  assigned (TaskUpdates.category updates)
           (Task.category old) (Task.category new) /\
  assigned (TaskUpdates.priority updates)
           (Task.priority old) (Task.priority new) /\
  assigned (TaskUpdates.dueDate updates)
           (Task.dueDate old) (Task.dueDate new) /\
  assigned (TaskUpdates.dueTime updates)
           (Task.dueTime old) (Task.dueTime new) /\
  assigned (TaskUpdates.reminder updates)
           (Task.reminder old) (Task.reminder new) /\
  assigned (TaskUpdates.repeat updates)
           (Task.repeat old) (Task.repeat new) /\
  assigned (TaskUpdates.completed updates)
           (Task.completed old) (Task.completed new) /\
  assigned (TaskUpdates.subtasks updates)
           (Task.subtasks old) (Task.subtasks new) /\
  assigned (TaskUpdates.createdAt updates)
           (Task.createdAt old) (Task.createdAt new).

(** A decimal digit. *)
Definition is_digit (c : ascii) : bool :=
  (48 <=? N_of_ascii c)%N && (N_of_ascii c <=? 57)%N.

(** A date string of the form YYYY-MM-DD: four digits, two digits and two
    digits, with a hyphen between the groups. *)
Definition YYYY_MM_DD (s : string) : Prop :=
  exists y1 y2 y3 y4 m1 m2 d1 d2 : ascii,
    s = String y1 (String y2 (String y3 (String y4 (String "-"
          (String m1 (String m2 (String "-"
             (String d1 (String d2 EmptyString))))))))) /\
    forallb is_digit [y1; y2; y3; y4; m1; m2; d1; d2] = true.

(** The integer an integral number stands for. *)
Definition integer_of_number (x : float) : option Z :=
  match Prim2SF x with
  | S754_zero _ => Some 0%Z
  | S754_finite s m e =>
      let sm := if s then Z.neg m else Z.pos m in
      if (0 <=? e)%Z then Some (sm * 2 ^ e)%Z
      else if (Z.pos m mod 2 ^ (- e) =? 0)%Z then Some (sm / 2 ^ (- e))%Z
      else None
  | _ => None
  end.

(** [x] is an integer from 0 to 100 at most one half away from the exact
    percentage [100 * finished / total]. *)
Definition nearest_percentage (finished total : nat) (x : float) : bool :=
  match integer_of_number x with
  | Some r =>
      (0 <=? r)%Z && (r <=? 100)%Z &&
      (Z.abs (200 * Z.of_nat finished - 2 * r * Z.of_nat total)
       <=? Z.of_nat total)%Z
  | None => false
  end.

(** The percentage computed from the two counts, as the method does. *)
Definition percentage_of_counts (finished total : nat) : float :=
  if (total =? 0)%nat then 0%float
  else JS.Math_round
         (JS.number_of_nat finished / JS.number_of_nat total * 100)%float.

(** The check of one collection size, over every number of completed
    tasks. *)
Definition percentage_row_ok (total : nat) : bool :=
  forallb
    (fun finished =>
       nearest_percentage finished total
                          (percentage_of_counts finished total))
    (seq 0 (S total)).





(** The defaults the specification documents: ten keys. *)
Definition documented_defaults : list (string * SettingValue) :=
  [ ("theme", SString "light");
    ("fontSize", SString "medium");
    ("pushNotifications", SBool true);
    ("emailReminders", SBool false);
    ("soundEffects", SBool true);
    ("showCompletedTasks", SBool true);
    ("sortBy", SString "dueDate");
    ("recurringTasks", SBool true);
    ("twoFactor", SBool false);
    ("darkMode", SBool false) ].

(** ** Concrete pages *)

(** A runtime whose JSON texts carry nothing: it serialises every value to
    the empty text and parses none.  The theorems below hold for every
    runtime; this one runs the methods on concrete worlds. *)
Definition Json_blank (A : Type) : Json A :=
  {| JSON_stringify := fun _ => ""; JSON_parse := fun _ => None |}.

(** A task with the given id, due date and completion flag. *)
Definition sample_task (id : Z) (dueDate : string) (completed : bool)
  : Task.t :=
  Task.mk id "Buy milk" "" "" "medium" dueDate "" "none" "none" completed []
          "2024-01-01T08:00:00.000Z".

(** The page that holds the given tasks and nothing else. *)
Definition sample_world (l : list Task.t) : World :=
  mkWorld l [] ∅ [] [].

(** A history of [n] unread entries with ids [n] down to 1, newest first. *)
Definition sample_history (n : nat) : list Notification.t :=
  List.map
    (fun k => Notification.mk (Z.of_nat (n - k)) "Task updated!" "success"
                              "2024-01-01T09:00:00.000Z" false)
    (seq 0 n).

(** Two tasks added at distinct times, one of them deleted, and a deletion
    that finds nothing. *)
Definition sample_ops : list TaskOp :=
  [ OpAdd 1704099600001 "2024-01-01T09:00:00.001Z"
      (TaskData.mk "Buy milk" None None None None None None None None None);
    OpAdd 1704099600002 "2024-01-01T09:00:00.002Z"
      (TaskData.mk "Call home" None None None None None None None None None);
    OpDelete 1704099600001;
    OpDelete 7 ].

(** Two tasks added within the same millisecond, then one deletion by
    their common id. *)
Definition same_millisecond_ops : list TaskOp :=
  [ OpAdd 1704099600000 "2024-01-01T09:00:00.000Z"
      (TaskData.mk "Buy milk" None None None None None None None None None);
    OpAdd 1704099600000 "2024-01-01T09:00:00.000Z"
      (TaskData.mk "Call home" None None None None None None None None None);
    OpDelete 1704099600000 ].

(** ** Calls of every kind on the task manager *)

Inductive TaskCall : Type :=
| CallAdd (now : Z) (iso : string) (taskData : TaskData.t)
| CallDelete (taskId : Z)
| CallUpdate (taskId : Z) (updates : TaskUpdates.t)
| CallToggle (taskId : Z).

Definition run_call `{Json (list Task.t)} (call : TaskCall) : Method unit :=
  match call with
  | CallAdd now iso taskData =>
      _ ← TaskManager.addTask now iso taskData; mret tt
  | CallDelete taskId => TaskManager.deleteTask taskId
  | CallUpdate taskId updates =>
      _ ← TaskManager.updateTask taskId updates; mret tt
  | CallToggle taskId =>
      _ ← TaskManager.toggleTask taskId; mret tt
  end.

Fixpoint run_calls `{Json (list Task.t)} (calls : list TaskCall)
  : Method unit :=
  match calls with
  | [] => mret tt
  | call :: rest => run_call call;; run_calls rest
  end.

(** The number of [addTask] calls among them. *)
Definition added (calls : list TaskCall) : nat :=
  length (List.filter (fun call => match call with
                                   | CallAdd _ _ _ => true
                                   | _ => false
                                   end) calls).

(** The number of tasks their [deleteTask] calls remove, run from [w]. *)
Fixpoint removed `{Json (list Task.t)} (calls : list TaskCall) (w : World)
  : nat :=
  match calls with
  | [] => 0
  | call :: rest =>
      (match call with
       | CallDelete taskId =>
           length (List.filter (fun task => (Task.id task =? taskId)%Z)
                               (tasks w))
       | _ => 0
       end) + removed rest (snd (run_call call w))
  end.

(** ** Calls of [addNotification] *)

(** The arguments of one call, with the two clock values it reads. *)
Record Recorded : Type := mkRecorded {
  rec_now : Z;
  rec_iso : string;
  rec_message : string;
  rec_type : option string
}.

(** The entry a call puts in the history. *)
Definition entry_of (call : Recorded) : Notification.t :=
  Notification.mk (rec_now call) (rec_message call)
                  (default "info" (rec_type call)) (rec_iso call) false.

Fixpoint record_all `{Json (list Notification.t)} (calls : list Recorded)
  : Method unit :=
  match calls with
  | [] => mret tt
  | call :: rest =>
      NotificationManager.addNotification (rec_now call) (rec_iso call)
        (rec_message call) (rec_type call);;
      record_all rest
  end.

(** * Properties *)

(** Unfolds the monad of the page in the goal. *)
Ltac run_method :=
  unfold mbind, mret, Method_bind, Method_ret, get_tasks, set_tasks,
    get_notifications, set_notifications, set_badges, getItem, setItem;
  cbn [fst snd tasks notifications localStorage setItem_calls badges].

(** ** Defaults of a new task *)

Lemma or_else_defaults_to (x : option string) (d : string) :
  defaults_to x d (JS.or_else x d).
Proof.
  unfold defaults_to, JS.or_else.
  repeat split.
  - intros ->. reflexivity.
  - intros ->. reflexivity.
  - intros s -> Hs. destruct s as [|c s']; [contradiction | reflexivity].
Qed.

(** C7. For every input object, [addTask] appends exactly one task at the
    end of the collection and returns it; the task carries the given title,
    the clock's id and creation time, each optional property or its default
    (description, category, dueDate and dueTime the empty string, priority
    'medium', reminder and repeat 'none', subtasks the empty array), and
    [completed = false] whatever the input holds; the new collection is
    written to the store.  No input is refused. *)
Theorem addTask_appends_defaulted_task `{Json (list Task.t)}
    (now : Z) (iso : string) (taskData : TaskData.t) (w : World) :
  let r := TaskManager.addTask now iso taskData w in
  let task := fst r in
  let w' := snd r in
  tasks w' = tasks w ++ [task] /\
  last (tasks w') = Some task /\
  length (tasks w') = S (length (tasks w)) /\
  Task.id task = now /\
  Task.createdAt task = iso /\
  Task.title task = TaskData.title taskData /\
  defaults_to (TaskData.description taskData) "" (Task.description task) /\
  defaults_to (TaskData.category taskData) "" (Task.category task) /\
  defaults_to (TaskData.priority taskData) "medium" (Task.priority task) /\
  defaults_to (TaskData.dueDate taskData) "" (Task.dueDate task) /\
  defaults_to (TaskData.dueTime taskData) "" (Task.dueTime task) /\
  defaults_to (TaskData.reminder taskData) "none" (Task.reminder task) /\
  defaults_to (TaskData.repeat taskData) "none" (Task.repeat task) /\
  Task.subtasks task = default [] (TaskData.subtasks taskData) /\
  Task.completed task = false /\
  localStorage w' !! "tasks" = Some (JSON_stringify (tasks w')) /\
  notifications w' = notifications w.
Proof.
  unfold TaskManager.addTask, TaskManager.saveTasks. run_method.
  repeat split; try reflexivity; try apply or_else_defaults_to.
  - apply last_snoc.
  - rewrite length_app. cbn. lia.
  - apply lookup_insert_eq.
Qed.

(** ** Lookups by id *)

Lemma list_find_id_absent (l : list Task.t) (taskId : Z) :
  (forall task, In task l -> Task.id task <> taskId) ->
  list_find (fun t => Task.id t = taskId) l = None.
Proof.
  intros Habs. apply list_find_None, Forall_forall.
  intros task Hin. apply Habs, list_elem_of_In, Hin.
Qed.

Lemma list_find_id_present (l : list Task.t) (taskId : Z) (task : Task.t) :
  In task l -> Task.id task = taskId ->
  exists i x, list_find (fun t => Task.id t = taskId) l = Some (i, x) /\
              l !! i = Some x /\ Task.id x = taskId.
Proof.
  intros Hin Hid.
  destruct (list_find_elem_of (fun t => Task.id t = taskId) l task)
    as [[i x] Hfind]; [apply list_elem_of_In, Hin | exact Hid |].
  exists i, x. split; [exact Hfind |].
  apply list_find_Some in Hfind. tauto.
Qed.

(** C6. When no task of the collection has the id, [updateTask] returns
    [undefined] and leaves the page as it was: the same collection, of the
    same size, the same store, and no [setItem] call. *)
Theorem updateTask_absent_id `{Json (list Task.t)}
    (taskId : Z) (updates : TaskUpdates.t) (w : World) :
  (forall task, In task (tasks w) -> Task.id task <> taskId) ->
  let r := TaskManager.updateTask taskId updates w in
  fst r = None /\
  snd r = w /\
  tasks (snd r) = tasks w /\
  length (tasks (snd r)) = length (tasks w) /\
  localStorage (snd r) = localStorage w /\
  setItem_calls (snd r) = setItem_calls w.
Proof.
  intros Habs. unfold TaskManager.updateTask. run_method.
  rewrite (list_find_id_absent _ _ Habs). cbn. tauto.
Qed.

(** ** Toggling *)

(** Replacing the element [find] returned by one that still satisfies the
    test leaves it the one [find] returns. *)
Lemma list_find_insert_found {A : Type} (P : A -> Prop)
    `{forall x, Decision (P x)} (l : list A) (i : nat) (x x' : A) :
  list_find P l = Some (i, x) -> P x' ->
  list_find P (<[i := x']> l) = Some (i, x').
Proof.
  intros Hfind Hx'. apply list_find_Some in Hfind as (Hi & _ & Hbefore).
  apply list_find_Some. repeat split.
  - apply list_lookup_insert_eq. eapply lookup_lt_Some, Hi.
  - exact Hx'.
  - intros j y Hj Hlt. rewrite list_lookup_insert_ne in Hj by lia.
    eapply Hbefore; eassumption.
Qed.

Lemma set_completed_involutive (x : Task.t) :
  Task.set_completed (negb (negb (Task.completed x)))
                     (Task.set_completed (negb (Task.completed x)) x) = x.
Proof. destruct x as [? ? ? ? ? ? ? ? ? c ? ?]. cbn. now rewrite negb_involutive. Qed.

(** C5. When the collection holds a task with id [taskId], the first call
    of [toggleTask taskId] negates the [completed] flag of the first such
    task, in place, and returns it; the second call returns that task as it
    was and the collection is the original one again, every other task
    untouched throughout. *)
Theorem toggleTask_twice_restores `{Json (list Task.t)}
    (taskId : Z) (w : World) (task : Task.t) :
  In task (tasks w) -> Task.id task = taskId ->
  let r1 := TaskManager.toggleTask taskId w in
  let r2 := TaskManager.toggleTask taskId (snd r1) in
  exists (i : nat) (x : Task.t),
    tasks w !! i = Some x /\
    Task.id x = taskId /\
    fst r1 = Some (Task.set_completed (negb (Task.completed x)) x) /\
    tasks (snd r1)
      = <[i := Task.set_completed (negb (Task.completed x)) x]> (tasks w) /\
    fst r2 = Some x /\
    tasks (snd r2) = tasks w.
Proof.
  intros Hin Hid.
  destruct (list_find_id_present _ _ _ Hin Hid) as (i & x & Hfind & Hi & Hx).
  exists i, x.
  unfold TaskManager.toggleTask, TaskManager.saveTasks. run_method.
  rewrite Hfind. cbn.
  rewrite (list_find_insert_found _ _ i x
             (Task.set_completed (negb (Task.completed x)) x) Hfind)
    by exact Hx.
  cbn. rewrite set_completed_involutive, list_insert_insert_eq.
  repeat split; try assumption.
  now apply list_insert_id.
Qed.

(** The hypotheses of [toggleTask_twice_restores] hold for the second of
    two tasks. *)
Lemma toggleTask_twice_restores_witness :
  let w := sample_world [sample_task 1 "" false; sample_task 2 "" false] in
  let r1 := @TaskManager.toggleTask (Json_blank _) 2 w in
  let r2 := @TaskManager.toggleTask (Json_blank _) 2 (snd r1) in
  In (sample_task 2 "" false) (tasks w) /\
  Task.id (sample_task 2 "" false) = 2%Z /\
  exists (i : nat) (x : Task.t),
    tasks w !! i = Some x /\
    Task.id x = 2%Z /\
    fst r1 = Some (Task.set_completed (negb (Task.completed x)) x) /\
    tasks (snd r1)
      = <[i := Task.set_completed (negb (Task.completed x)) x]> (tasks w) /\
    fst r2 = Some x /\
    tasks (snd r2) = tasks w.
Proof.
  cbv zeta.
  assert (Hin : In (sample_task 2 "" false)
                   (tasks (sample_world [sample_task 1 "" false;
                                         sample_task 2 "" false])))
    by (cbn; right; left; reflexivity).
  assert (Hid : Task.id (sample_task 2 "" false) = 2%Z) by reflexivity.
  split; [exact Hin |]. split; [exact Hid |].
  exact (@toggleTask_twice_restores (Json_blank _) 2
           (sample_world [sample_task 1 "" false; sample_task 2 "" false])
           (sample_task 2 "" false) Hin Hid).
Defined.

(** The hypothesis of [updateTask_absent_id] holds for an id no task
    has. *)
Lemma updateTask_absent_id_witness :
  let w := sample_world [sample_task 1 "" false] in
  let r := @TaskManager.updateTask (Json_blank _) 2
             (TaskUpdates.mk None (Some "Buy bread") None None None None None
                             None None None None None) w in
  (forall task, In task (tasks w) -> Task.id task <> 2%Z) /\
  fst r = None /\
  snd r = w /\
  tasks (snd r) = tasks w /\
  length (tasks (snd r)) = length (tasks w) /\
  localStorage (snd r) = localStorage w /\
  setItem_calls (snd r) = setItem_calls w.
Proof.
  cbv zeta.
  assert (Habs : forall task,
             In task (tasks (sample_world [sample_task 1 "" false])) ->
             Task.id task <> 2%Z)
    by (cbn; intros task [<- | []]; cbn; lia).
  split; [exact Habs |].
  exact (@updateTask_absent_id (Json_blank _) 2 _ _ Habs).
Defined.

(** ** Filters *)

(** [Array.prototype.filter] keeps a subsequence. *)
Lemma List_filter_sublist {A : Type} (f : A -> bool) (l : list A) :
  sublist (List.filter f l) l.
Proof.
  induction l as [|a l IH]; cbn.
  - constructor.
  - destruct (f a); now constructor.
Qed.

(** A filter by a boolean test is the filter by the property the test
    decides. *)
Lemma List_filter_decides {A : Type} (f : A -> bool) (P : A -> Prop)
    `{forall x, Decision (P x)} (l : list A) :
  (forall x, f x = true <-> P x) ->
  List.filter f l = filter P l.
Proof.
  intros Hf. induction l as [|a l IH]; [reflexivity |].
  rewrite filter_cons. change (List.filter f (a :: l))
    with (if f a then a :: List.filter f l else List.filter f l).
  rewrite IH. destruct (f a) eqn:Hfa.
  - rewrite decide_True; [reflexivity | now apply Hf].
  - rewrite decide_False; [reflexivity |].
    intros HP. apply Hf in HP. congruence.
Qed.

(** The two halves of a filter and of its negation make up the list. *)
Lemma List_filter_split {A : Type} (f : A -> bool) (l : list A) :
  Permutation (List.filter f l ++ List.filter (fun x => negb (f x)) l) l.
Proof.
  induction l as [|a l IH]; cbn; [constructor |].
  destruct (f a); cbn.
  - now constructor.
  - symmetry. etransitivity; [| apply Permutation_middle].
    constructor. now symmetry.
Qed.

(** C10. [getCompletedTasks] and [getPendingTasks] split the collection in
    two subsequences (each in the collection's order): a task of the
    collection is in the first exactly when its [completed] flag is set and
    in the second exactly when it is not, so in exactly one of them; the
    two lengths add up to the collection's, and [getRemainingTasksCount] is
    the collection's length less the number of completed tasks. *)
Theorem completed_pending_partition (w : World) :
  let all := TaskManager.getAllTasks w in
  let finished := TaskManager.getCompletedTasks w in
  let pending := TaskManager.getPendingTasks w in
  sublist finished all /\
  sublist pending all /\
  finished = filter (fun task => Task.completed task = true) all /\
  pending = filter (fun task => Task.completed task = false) all /\
  (forall task, In task finished <->
                In task all /\ Task.completed task = true) /\
  (forall task, In task pending <->
                In task all /\ Task.completed task = false) /\
  (forall task, In task all ->
                (In task finished /\ ~ In task pending) \/
                (In task pending /\ ~ In task finished)) /\
  Permutation (finished ++ pending) all /\
  length finished + length pending = length all /\
  TaskManager.getRemainingTasksCount w = length all - length finished.
Proof.
  unfold TaskManager.getRemainingTasksCount, TaskManager.getAllTasks,
    TaskManager.getCompletedTasks, TaskManager.getPendingTasks.
  cbn zeta.
  assert (Hin1 : forall task,
             In task (List.filter (fun t => Task.completed t) (tasks w)) <->
             In task (tasks w) /\ Task.completed task = true)
    by (intros task; apply filter_In).
  assert (Hin2 : forall task,
             In task (List.filter (fun t => negb (Task.completed t)) (tasks w))
             <-> In task (tasks w) /\ Task.completed task = false).
  { intros task. rewrite filter_In, negb_true_iff. reflexivity. }
  pose proof (filter_length (fun t => Task.completed t) (tasks w)) as Hlen.
  split_and!.
  - apply List_filter_sublist.
  - apply List_filter_sublist.
  - apply List_filter_decides. intros x. reflexivity.
  - apply List_filter_decides. intros x. apply negb_true_iff.
  - exact Hin1.
  - exact Hin2.
  - intros task Hin. rewrite Hin1, Hin2.
    destruct (Task.completed task); [left | right]; intuition congruence.
  - apply List_filter_split.
  - exact Hlen.
  - cbn beta in Hlen. lia.
Qed.

(** ** Due dates *)

Lemma code_unit_inj (c d : ascii) : JS.code_unit c = JS.code_unit d -> c = d.
Proof.
  unfold JS.code_unit. intros Heq.
  rewrite <- (ascii_N_embedding c), <- (ascii_N_embedding d).
  now rewrite Heq.
Qed.

Lemma string_lt_lex (x y : string) : JS.string_lt x y = true <-> lex_lt x y.
Proof.
  revert y. induction x as [|cx x IH]; intros [|cy y]; cbn.
  - split; [discriminate | inversion 1].
  - split; [constructor | reflexivity].
  - split; [discriminate | inversion 1].
  - destruct (N.ltb_spec (JS.code_unit cx) (JS.code_unit cy)) as [Hlt | Hge].
    + split; [| reflexivity]. intros _. now apply lex_lt_head.
    + destruct (N.ltb_spec (JS.code_unit cy) (JS.code_unit cx)) as [Hgt | Hle].
      * split; [discriminate |]. inversion 1; subst; lia.
      * assert (cx = cy) as -> by (apply code_unit_inj; lia).
        rewrite IH. split; [apply lex_lt_tail |].
        inversion 1; subst; [lia | assumption].
Qed.

(** The comparison of the script is the library's [String.compare]. *)
Lemma string_lt_compare (x y : string) :
  JS.string_lt x y = true <-> String.compare x y = Lt.
Proof.
  revert y. induction x as [|cx x IH]; intros [|cy y]; cbn;
    try (split; (reflexivity || discriminate)).
  unfold Ascii.compare, JS.code_unit.
  destruct (N.compare_spec (N_of_ascii cx) (N_of_ascii cy)) as [Heq | Hlt | Hgt].
  - rewrite Heq, N.ltb_irrefl. apply IH.
  - apply N.ltb_lt in Hlt as ->. split; reflexivity.
  - assert ((N_of_ascii cx <? N_of_ascii cy)%N = false) as ->
      by (apply N.ltb_ge; lia).
    apply N.ltb_lt in Hgt as ->. split; discriminate.
Qed.

#[global] Instance lex_lt_dec (x y : string) : Decision (lex_lt x y).
Proof.
  destruct (JS.string_lt x y) eqn:Hlt.
  - left. now apply string_lt_lex.
  - right. intros Hlex. apply string_lt_lex in Hlex. congruence.
Defined.

(** The date part of an ISO string [date ++ "T" ++ time]. *)
Lemma split_first_date (date time : string) :
  (forall c, In c (list_ascii_of_string date) -> c <> "T"%char) ->
  JS.split_first "T" (date ++ String "T" time)%string = date.
Proof.
  induction date as [|c date IH]; intros HnoT.
  - reflexivity.
  - change (JS.split_first "T" (String c (date ++ String "T" time)%string)
            = String c date).
    cbn [JS.split_first].
    destruct (Ascii.eqb_spec c "T") as [-> | _].
    + exfalso. apply (HnoT "T"%char); [now left | reflexivity].
    + f_equal. apply IH. intros d Hd. apply HnoT. now right.
Qed.

(** A date of the form YYYY-MM-DD holds no T. *)
Lemma YYYY_MM_DD_no_T (today : string) :
  YYYY_MM_DD today ->
  forall c, In c (list_ascii_of_string today) -> c <> "T"%char.
Proof.
  intros (y1 & y2 & y3 & y4 & m1 & m2 & d1 & d2 & -> & Hdigits) c Hin ->.
  cbn [forallb] in Hdigits. rewrite !andb_true_iff in Hdigits.
  cbn [list_ascii_of_string In] in Hin.
  assert (Hnot : is_digit "T" = false) by reflexivity.
  repeat (destruct Hin as [Heq | Hin];
          [first [discriminate Heq
                 | rewrite Heq in Hdigits; rewrite Hnot in Hdigits;
                   intuition discriminate] |]).
  exact Hin.
Qed.

(** The two filters in terms of the date part the methods cut out of the
    clock string. *)
Lemma due_filters_by_date_part (iso : string) (w : World) :
  let today := JS.split_first "T" iso in
  TaskManager.getTodayTasks iso w
    = filter (fun task => Task.dueDate task = today) (tasks w) /\
  TaskManager.getUpcomingTasks iso w
    = filter (fun task => lex_lt today (Task.dueDate task)) (tasks w) /\
  (forall task, In task (TaskManager.getTodayTasks iso w) <->
                In task (tasks w) /\ Task.dueDate task = today) /\
  (forall task, In task (TaskManager.getUpcomingTasks iso w) <->
                In task (tasks w) /\ lex_lt today (Task.dueDate task)) /\
  sublist (TaskManager.getTodayTasks iso w) (tasks w) /\
  sublist (TaskManager.getUpcomingTasks iso w) (tasks w).
Proof.
  unfold TaskManager.getTodayTasks, TaskManager.getUpcomingTasks,
    JS.string_strict_eq, JS.string_gt.
  cbn zeta. split_and!.
  - apply List_filter_decides. intros task. apply String.eqb_eq.
  - apply List_filter_decides. intros task. apply string_lt_lex.
  - intros task. rewrite filter_In, String.eqb_eq. reflexivity.
  - intros task. rewrite filter_In, string_lt_lex. reflexivity.
  - apply List_filter_sublist.
  - apply List_filter_sublist.
Qed.

(** C3. When the clock's ISO string is [today], of the form YYYY-MM-DD,
    followed by T and the time of day, [getTodayTasks] returns exactly the
    tasks, in order, whose [dueDate] is the string [today], and
    [getUpcomingTasks] exactly those whose [dueDate] comes after [today] in
    the lexicographic order of strings; nothing else of a task is looked
    at. *)
Theorem due_filters_compare_strings (today time : string) (w : World) :
  YYYY_MM_DD today ->
  let iso := (today ++ String "T" time)%string in
  TaskManager.getTodayTasks iso w
    = filter (fun task => Task.dueDate task = today) (tasks w) /\
  TaskManager.getUpcomingTasks iso w
    = filter (fun task => lex_lt today (Task.dueDate task)) (tasks w) /\
  (forall task, In task (TaskManager.getTodayTasks iso w) <->
                In task (tasks w) /\ Task.dueDate task = today) /\
  (forall task, In task (TaskManager.getUpcomingTasks iso w) <->
                In task (tasks w) /\ lex_lt today (Task.dueDate task)) /\
  sublist (TaskManager.getTodayTasks iso w) (tasks w) /\
  sublist (TaskManager.getUpcomingTasks iso w) (tasks w).
Proof.
  intros Hdate. cbn zeta.
  pose proof (due_filters_by_date_part (today ++ String "T" time)%string w)
    as Hfilters.
  cbn zeta in Hfilters.
  rewrite (split_first_date today time (YYYY_MM_DD_no_T today Hdate))
    in Hfilters.
  exact Hfilters.
Qed.

(** The date 2024-01-01 has the form YYYY-MM-DD; the page holds a
    completed task due that day, one due the day after and one without a
    due date. *)
Lemma due_filters_compare_strings_witness :
  let today := "2024-01-01" in
  let w := sample_world [sample_task 1 "2024-01-01" true;
                         sample_task 2 "2024-01-02" false;
                         sample_task 3 "" false] in
  let iso := (today ++ String "T" "17:30:00.000Z")%string in
  YYYY_MM_DD today /\
  TaskManager.getTodayTasks iso w
    = filter (fun task => Task.dueDate task = today) (tasks w) /\
  TaskManager.getUpcomingTasks iso w
    = filter (fun task => lex_lt today (Task.dueDate task)) (tasks w) /\
  (forall task, In task (TaskManager.getTodayTasks iso w) <->
                In task (tasks w) /\ Task.dueDate task = today) /\
  (forall task, In task (TaskManager.getUpcomingTasks iso w) <->
                In task (tasks w) /\ lex_lt today (Task.dueDate task)) /\
  sublist (TaskManager.getTodayTasks iso w) (tasks w) /\
  sublist (TaskManager.getUpcomingTasks iso w) (tasks w).
Proof.
  cbv zeta.
  assert (Hdate : YYYY_MM_DD "2024-01-01")
    by (do 8 eexists; split; reflexivity).
  split; [exact Hdate |].
  exact (due_filters_compare_strings "2024-01-01" "17:30:00.000Z" _ Hdate).
Defined.

(** The scenario of the specification: a task added with due date
    2024-01-01 is due today on 2024-01-01 and is not upcoming. *)
Example buy_milk_is_due_today :
  let data := TaskData.mk "Buy milk" None None None (Some "2024-01-01")
                          None None None None None in
  let r := @TaskManager.addTask (Json_blank _) 1704099600000
             "2024-01-01T09:00:00.000Z" data (sample_world []) in
  TaskManager.getTodayTasks "2024-01-01T17:30:00.000Z" (snd r) = [fst r] /\
  TaskManager.getUpcomingTasks "2024-01-01T17:30:00.000Z" (snd r) = [].
Proof. split; reflexivity. Qed.

(** A completed task is due today all the same. *)
Example completed_task_is_due_today :
  TaskManager.getTodayTasks "2024-01-01T17:30:00.000Z"
    (sample_world [sample_task 1 "2024-01-01" true])
  = [sample_task 1 "2024-01-01" true].
Proof. reflexivity. Qed.

(** The order is that of strings, not of dates: on 10 January a due date
    written 2025-1-05 is upcoming, and one in year 10000 is not. *)
Example upcoming_compares_strings :
  TaskManager.getUpcomingTasks "2025-01-10T00:00:00.000Z"
    (sample_world [sample_task 1 "2025-1-05" false;
                   sample_task 2 "10000-01-01" false;
                   sample_task 3 "2025-01-11" false])
  = [sample_task 1 "2025-1-05" false; sample_task 3 "2025-01-11" false].
Proof. reflexivity. Qed.

(** ** Completion percentage *)

Lemma forallb_seq_elim (f : nat -> bool) (n k : nat) :
  forallb f (seq 0 n) = true -> k < n -> f k = true.
Proof.
  intros Hall Hk. rewrite forallb_forall in Hall.
  apply Hall, in_seq. lia.
Qed.

Lemma percentage_table_200 : forallb percentage_row_ok (seq 0 201) = true.
Proof. vm_compute. reflexivity. Qed.

Lemma percentage_of_counts_nearest (finished total : nat) :
  finished <= total -> total <= 200 ->
  nearest_percentage finished total (percentage_of_counts finished total)
  = true.
Proof.
  intros Hle Hbound.
  assert (Hrow : percentage_row_ok total = true)
    by (apply (forallb_seq_elim _ 201); [exact percentage_table_200 | lia]).
  apply (forallb_seq_elim _ (S total) finished Hrow). lia.
Qed.

(** *** The binary64 quotient and product

    The operations of the kernel's [float] are specified by those of
    [SpecFloat] on mantissa and exponent.  The lemmas below bound the
    rounding of [binary_round_aux] and follow the quotient, the product and
    [Math.round] of [getCompletionPercentage] on integers. *)
Section Binary64.
Local Open Scope Z_scope.



























End Binary64.






(** The scenario of the specification, run: three tasks added, the second
    one toggled; with a second task toggled the percentage is 67. *)
Example one_of_three_completed :
  let add now title :=
    @TaskManager.addTask (Json_blank _) now "2024-01-01T09:00:00.000Z"
      (TaskData.mk title None None None None None None None None None) in
  let w1 := snd (add 1704099600001%Z "Buy milk" (sample_world [])) in
  let w2 := snd (add 1704099600002%Z "Call home" w1) in
  let w3 := snd (add 1704099600003%Z "Water plants" w2) in
  let w4 := snd (@TaskManager.toggleTask (Json_blank _) 1704099600002 w3) in
  let w5 := snd (@TaskManager.toggleTask (Json_blank _) 1704099600003 w4) in
  TaskManager.getCompletionPercentage (sample_world []) = 0%float /\
  TaskManager.getCompletionPercentage w4 = 33%float /\
  TaskManager.getRemainingTasksCount w4 = 2 /\
  TaskManager.getCompletionPercentage w5 = 67%float /\
  TaskManager.getRemainingTasksCount w5 = 1.
Proof. cbv zeta. split_and!; vm_compute; reflexivity. Qed.

(** X21. On a collection of at most 200 tasks the percentage is a whole
    number from 0 to 100, and no other whole number is closer to the exact
    quotient. *)
Lemma completion_percentage_nearest_integer (w : World) :
  length (tasks w) <= 200 ->
  nearest_percentage (length (TaskManager.getCompletedTasks w))
                     (length (tasks w))
                     (TaskManager.getCompletionPercentage w) = true.
Proof.
  intros Hbound.
  apply (percentage_of_counts_nearest
           (length (TaskManager.getCompletedTasks w)) (length (tasks w)));
    [apply filter_length_le | exact Hbound].
Qed.

(** The quotient is rounded in binary64: one task of eight gives 12.5 and
    rounds up to 13, while 29 of 200 give a product just below 14.5 and
    round to 14. *)
Example completion_percentage_halves :
  percentage_of_counts 1 8 = 13%float /\
  (JS.number_of_nat 29 / JS.number_of_nat 200 * 100
   <? 14.5)%float = true /\
  percentage_of_counts 29 200 = 14%float.
Proof. split_and!; reflexivity. Qed.

(** ** Notification history *)

Lemma take_all_but_last {A : Type} (l : list A) (n : nat) :
  length l = S n -> take n l = removelast l.
Proof.
  intros Hlen.
  destruct (exists_last (l := l)) as (l' & a & ->);
    [intros ->; discriminate |].
  rewrite length_app in Hlen. cbn in Hlen.
  rewrite removelast_last, take_app_length'; [reflexivity | lia].
Qed.

(** C1. Whatever the history holds, after [addNotification] it has at
    most 50 entries and the new, unread entry is its first; the entries
    that follow are the first 49 of the old history in their order: all of
    it while it held fewer than 50, and all but its last (the oldest) entry
    when it held 50. *)
Theorem addNotification_bounded_history `{Json (list Notification.t)}
    (now : Z) (iso message : string) (type : option string) (w : World) :
  let entry := Notification.mk now message (default "info" type) iso false in
  let old := notifications w in
  let new :=
    notifications
      (snd (NotificationManager.addNotification now iso message type w)) in
  length new <= 50 /\
  head new = Some entry /\
  new = entry :: take 49 old /\
  sublist (tail new) old /\
  (length old < 50 -> new = entry :: old) /\
  (length old = 50 -> new = entry :: removelast old) /\
  (forall kept oldest, old = kept ++ [oldest] -> length kept = 49 ->
                       new = entry :: kept).
Proof.
  cbn zeta.
  assert (Hnew :
    notifications
      (snd (NotificationManager.addNotification now iso message type w))
    = Notification.mk now message (default "info" type) iso false
        :: take 49 (notifications w)).
  { unfold NotificationManager.addNotification,
      NotificationManager.saveNotifications,
      NotificationManager.updateNotificationBadge.
    run_method.
    destruct (Nat.ltb_spec 50 (length (Notification.mk now message
                (default "info" type) iso false :: notifications w)))
      as [Hlong | Hshort]; cbn in *; run_method.
    - reflexivity.
    - rewrite take_ge by lia. reflexivity. }
  rewrite Hnew. split_and!.
  - cbn. rewrite length_take. lia.
  - reflexivity.
  - reflexivity.
  - cbn. apply sublist_take.
  - intros Hlt. rewrite take_ge by lia. reflexivity.
  - intros Hlen. now rewrite (take_all_but_last _ 49).
  - intros kept oldest -> Hkept.
    rewrite take_app_length'; [reflexivity | now symmetry].
Qed.

(** Adding a 51st entry: 50 remain, the new one first, the oldest gone. *)
Example addNotification_51st :
  let w := mkWorld [] (sample_history 50) ∅ [] [] in
  let new :=
    notifications
      (snd (@NotificationManager.addNotification (Json_blank _) 51
              "2024-01-01T09:00:01.000Z" "Task deleted!" None w)) in
  length new = 50 /\
  List.map Notification.id new = List.map Z.of_nat (rev (seq 2 50)).
Proof. cbv zeta. split; vm_compute; reflexivity. Qed.

(** C8. After [markAllAsRead] every entry of the history is read and
    [getUnreadCount] is 0; the entries are the same otherwise.  A second
    call changes nothing: the history, the stored text and the badges are
    those the first call left. *)
Theorem markAllAsRead_idempotent `{Json (list Notification.t)} (w : World) :
  let w1 := snd (NotificationManager.markAllAsRead w) in
  let w2 := snd (NotificationManager.markAllAsRead w1) in
  NotificationManager.getUnreadCount w1 = 0 /\
  Forall (fun n => Notification.read n = true) (notifications w1) /\
  notifications w1 = List.map (Notification.set_read true) (notifications w) /\
  notifications w2 = notifications w1 /\
  NotificationManager.getUnreadCount w2 = 0 /\
  localStorage w2 = localStorage w1 /\
  badges w2 = badges w1 /\
  tasks w2 = tasks w.
Proof.
  assert (Hread : forall l : list Notification.t,
    List.filter (fun n => negb (Notification.read n))
                (List.map (Notification.set_read true) l) = []).
  { intros l. induction l as [|n l IH]; [reflexivity | exact IH]. }
  assert (Hmap : forall l : list Notification.t,
    List.map (Notification.set_read true)
             (List.map (Notification.set_read true) l)
    = List.map (Notification.set_read true) l).
  { intros l. rewrite List.map_map. reflexivity. }
  unfold NotificationManager.markAllAsRead,
    NotificationManager.saveNotifications,
    NotificationManager.updateNotificationBadge,
    NotificationManager.getUnreadCount.
  run_method. rewrite !Hmap, !Hread. cbn. split_and!; try reflexivity.
  - apply Forall_forall. intros n Hn. apply list_elem_of_In, in_map_iff in Hn.
    destruct Hn as (n0 & <- & _). reflexivity.
  - apply insert_insert_eq.
  - rewrite List.map_map. reflexivity.
Qed.

(** ** Default settings *)

Lemma documented_defaults_NoDup : NoDup (documented_defaults.*1).
Proof. compute_done. Qed.

Lemma getDefaultSettings_documented :
  SettingsManager.getDefaultSettings = list_to_map documented_defaults.
Proof. vm_compute. reflexivity. Qed.

(** C9. When the store holds no settings record, the manager is built with
    the defaults, and [getAllSettings] returns exactly the ten documented
    pairs: a key has a value in it exactly when the pair is one of the
    ten. *)
Theorem default_settings_when_nothing_stored
    `{Json (gmap string SettingValue)} (w : World) :
  localStorage w !! "settings" = None ->
  exists settings : gmap string SettingValue,
    SettingsManager.constructor w = Some settings /\
    SettingsManager.getAllSettings settings
      = list_to_map documented_defaults /\
    size (SettingsManager.getAllSettings settings) = 10 /\
    (forall key value,
        SettingsManager.getSetting key settings = Some value <->
        In (key, value) documented_defaults) /\
    (forall key,
        SettingsManager.getSetting key settings = None <->
        ~ In key (documented_defaults.*1)) /\
    SettingsManager.getSetting "theme" settings = Some (SString "light") /\
    SettingsManager.getSetting "darkMode" settings = Some (SBool false).
Proof.
  intros Hnone. exists SettingsManager.getDefaultSettings.
  unfold SettingsManager.constructor, SettingsManager.loadSettings,
    SettingsManager.getAllSettings, SettingsManager.getSetting, parse_or.
  rewrite Hnone, getDefaultSettings_documented. split_and!.
  - reflexivity.
  - reflexivity.
  - vm_compute. reflexivity.
  - intros key value. rewrite <- list_elem_of_In.
    symmetry. apply elem_of_list_to_map, documented_defaults_NoDup.
  - intros key. rewrite <- list_elem_of_In.
    symmetry. apply not_elem_of_list_to_map.
  - vm_compute. reflexivity.
  - vm_compute. reflexivity.
Qed.

(** The hypothesis of [default_settings_when_nothing_stored] holds for the
    empty store. *)
Lemma default_settings_when_nothing_stored_witness :
  localStorage (sample_world []) !! "settings" = None /\
  exists settings : gmap string SettingValue,
    @SettingsManager.constructor (Json_blank _) (sample_world [])
      = Some settings /\
    SettingsManager.getAllSettings settings
      = list_to_map documented_defaults /\
    size (SettingsManager.getAllSettings settings) = 10 /\
    (forall key value,
        SettingsManager.getSetting key settings = Some value <->
        In (key, value) documented_defaults) /\
    (forall key,
        SettingsManager.getSetting key settings = None <->
        ~ In key (documented_defaults.*1)) /\
    SettingsManager.getSetting "theme" settings = Some (SString "light") /\
    SettingsManager.getSetting "darkMode" settings = Some (SBool false).
Proof.
  assert (Hnone : localStorage (sample_world []) !! "settings" = None)
    by reflexivity.
  split; [exact Hnone |].
  exact (@default_settings_when_nothing_stored (Json_blank _)
           (sample_world []) Hnone).
Defined.

(** ** Sequences of additions and deletions *)

Lemma run_op_add_tasks `{Json (list Task.t)} now iso taskData (w : World) :
  exists task,
    Task.id task = now /\
    tasks (snd (run_op (OpAdd now iso taskData) w)) = tasks w ++ [task].
Proof.
  eexists. split; [| unfold run_op, TaskManager.addTask,
                       TaskManager.saveTasks; run_method; reflexivity].
  reflexivity.
Qed.

Lemma run_op_delete_tasks `{Json (list Task.t)} taskId (w : World) :
  tasks (snd (run_op (OpDelete taskId) w))
  = List.filter (fun task => negb (Task.id task =? taskId)%Z) (tasks w).
Proof.
  unfold run_op, TaskManager.deleteTask, TaskManager.saveTasks.
  run_method. reflexivity.
Qed.

Lemma run_ops_cons `{Json (list Task.t)} op rest (w : World) :
  snd (run_ops (op :: rest) w) = snd (run_ops rest (snd (run_op op w))).
Proof.
  cbn [run_ops]. unfold mbind, Method_bind.
  destruct (run_op op w) as [[] w1]. reflexivity.
Qed.

(** Every [deleteTask] removes all the tasks that hold its id: the length
    of the collection is the number of additions less the number of tasks
    removed. *)
Lemma length_is_adds_minus_removed `{Json (list Task.t)}
    (ops : list TaskOp) (w : World) :
  length (tasks (snd (run_ops ops w))) + removed_tasks ops w
  = length (tasks w) + add_calls ops.
Proof.
  revert w. induction ops as [|op rest IH]; intros w.
  - cbn. lia.
  - rewrite run_ops_cons. cbn [removed_tasks].
    specialize (IH (snd (run_op op w))).
    destruct op as [now iso taskData | taskId].
    + destruct (run_op_add_tasks now iso taskData w) as (task & _ & Htasks).
      rewrite Htasks, length_app in IH.
      set (w1 := snd (run_op (OpAdd now iso taskData) w)) in *.
      unfold add_calls in *. cbn [List.filter length] in *. lia.
    + rewrite run_op_delete_tasks in IH.
      pose proof (filter_length (fun task => (Task.id task =? taskId)%Z)
                                (tasks w)) as Hlen.
      set (w1 := snd (run_op (OpDelete taskId) w)) in *.
      unfold add_calls in *. cbn [List.filter length] in *. lia.
Qed.

Lemma has_id_elem_of (taskId : Z) (l : list Task.t) :
  has_id taskId l = true <-> taskId ∈ Task.id <$> l.
Proof.
  unfold has_id. rewrite existsb_exists, list_elem_of_fmap.
  split.
  - intros (task & Hin & Hid). exists task.
    apply Z.eqb_eq in Hid. split; [now symmetry | now apply list_elem_of_In].
  - intros (task & -> & Hin). exists task.
    split; [now apply list_elem_of_In | apply Z.eqb_refl].
Qed.

(** Among tasks of pairwise distinct ids, at most one holds a given id. *)
Lemma tasks_with_id_NoDup (taskId : Z) (l : list Task.t) :
  NoDup (Task.id <$> l) ->
  length (List.filter (fun task => (Task.id task =? taskId)%Z) l)
  = if has_id taskId l then 1 else 0.
Proof.
  induction l as [|a l IH]; [reflexivity |].
  rewrite fmap_cons, NoDup_cons. intros [Hfresh Hnodup].
  specialize (IH Hnodup). cbn [List.filter has_id existsb].
  fold (has_id taskId l).
  destruct (Z.eqb_spec (Task.id a) taskId) as [Heq | Hne]; cbn.
  - destruct (has_id taskId l) eqn:Hhas.
    + apply has_id_elem_of in Hhas. congruence.
    + now rewrite IH.
  - exact IH.
Qed.

(** Additions with fresh ids and deletions keep the ids of the collection
    pairwise distinct, and distinct from the ids still to come. *)
Lemma run_op_ids_NoDup `{Json (list Task.t)} op rest (w : World) :
  NoDup ((Task.id <$> tasks w) ++ add_ids (op :: rest)) ->
  NoDup ((Task.id <$> tasks (snd (run_op op w))) ++ add_ids rest).
Proof.
  destruct op as [now iso taskData | taskId].
  - destruct (run_op_add_tasks now iso taskData w) as (task & Hid & ->).
    rewrite fmap_app, <- app_assoc. cbn. now rewrite Hid.
  - rewrite run_op_delete_tasks. intros Hnodup.
    change (add_ids (OpDelete taskId :: rest)) with (add_ids rest) in Hnodup.
    eapply sublist_NoDup; [exact Hnodup |].
    apply sublist_app; [| reflexivity].
    apply fmap_sublist, List_filter_sublist.
Qed.

Lemma removed_is_successful `{Json (list Task.t)}
    (ops : list TaskOp) (w : World) :
  NoDup ((Task.id <$> tasks w) ++ add_ids ops) ->
  removed_tasks ops w = successful_deletes ops w.
Proof.
  revert w. induction ops as [|op rest IH]; intros w Hnodup; [reflexivity |].
  cbn [removed_tasks successful_deletes].
  rewrite (IH _ (run_op_ids_NoDup _ _ _ Hnodup)). f_equal.
  destruct op as [now iso taskData | taskId]; [reflexivity |].
  apply tasks_with_id_NoDup. now apply NoDup_app in Hnodup as [Hids _].
Qed.

(** C2, as amended.  Starting from the empty collection, when the clock
    values read by the [addTask] calls are pairwise distinct, the length of
    the collection is the number of [addTask] calls less the number of
    [deleteTask] calls that found a task with their id. *)
Theorem length_is_adds_minus_successful_deletes `{Json (list Task.t)}
    (ops : list TaskOp) (w : World) :
  tasks w = [] ->
  NoDup (add_ids ops) ->
  let final := snd (run_ops ops w) in
  length (TaskManager.getAllTasks final)
  = add_calls ops - successful_deletes ops w /\
  length (TaskManager.getAllTasks final) + successful_deletes ops w
  = add_calls ops.
Proof.
  intros Hempty Hnodup. cbn zeta. unfold TaskManager.getAllTasks.
  pose proof (length_is_adds_minus_removed ops w) as Hlen.
  rewrite removed_is_successful in Hlen by (rewrite Hempty; exact Hnodup).
  rewrite Hempty in Hlen. cbn in Hlen. lia.
Qed.

(** The hypotheses of [length_is_adds_minus_successful_deletes] hold for
    [sample_ops] run on the empty page. *)
Lemma length_is_adds_minus_successful_deletes_witness :
  let final := snd (@run_ops (Json_blank _) sample_ops (sample_world [])) in
  tasks (sample_world []) = [] /\
  NoDup (add_ids sample_ops) /\
  length (TaskManager.getAllTasks final)
  = add_calls sample_ops
    - @successful_deletes (Json_blank _) sample_ops (sample_world []) /\
  length (TaskManager.getAllTasks final)
  + @successful_deletes (Json_blank _) sample_ops (sample_world [])
  = add_calls sample_ops.
Proof.
  cbv zeta.
  assert (Hempty : tasks (sample_world []) = []) by reflexivity.
  assert (Hnodup : NoDup (add_ids sample_ops))
    by (apply (bool_decide_unpack _); vm_compute; exact I).
  split; [exact Hempty |]. split; [exact Hnodup |].
  exact (@length_is_adds_minus_successful_deletes (Json_blank _) sample_ops
           (sample_world []) Hempty Hnodup).
Defined.

(** C2, as stated, fails when two [addTask] calls read the same clock
    value: the two tasks share an id, one [deleteTask] removes both, and
    the collection is empty after two additions and one successful
    deletion. *)
Lemma same_millisecond_adds_break_the_count :
  let final :=
    snd (@run_ops (Json_blank _) same_millisecond_ops (sample_world [])) in
  tasks (sample_world []) = [] /\
  add_calls same_millisecond_ops = 2 /\
  @successful_deletes (Json_blank _) same_millisecond_ops (sample_world [])
  = 1 /\
  length (TaskManager.getAllTasks final) = 0 /\
  length (TaskManager.getAllTasks final)
  <> add_calls same_millisecond_ops
     - @successful_deletes (Json_blank _) same_millisecond_ops
                           (sample_world []).
Proof. cbv zeta. split_and!; vm_compute; try reflexivity. discriminate. Qed.

(** * Further properties of the managers *)

(** ** Deleting *)

Lemma List_filter_idemp {A : Type} (f : A -> bool) (l : list A) :
  List.filter f (List.filter f l) = List.filter f l.
Proof.
  induction l as [|a l IH]; [reflexivity |].
  cbn. destruct (f a) eqn:Hfa; cbn; [rewrite Hfa, IH |]; auto.
Qed.

Lemma List_filter_comm {A : Type} (f g : A -> bool) (l : list A) :
  List.filter f (List.filter g l) = List.filter g (List.filter f l).
Proof.
  induction l as [|a l IH]; [reflexivity |].
  cbn. destruct (f a) eqn:Hfa, (g a) eqn:Hga; cbn;
    rewrite ?Hfa, ?Hga, IH; reflexivity.
Qed.

Lemma List_filter_all {A : Type} (f : A -> bool) (l : list A) :
  (forall x, In x l -> f x = true) -> List.filter f l = l.
Proof.
  induction l as [|a l IH]; intros Hall; [reflexivity |].
  cbn. rewrite (Hall a) by now left.
  f_equal. apply IH. intros x Hx. apply Hall. now right.
Qed.

(** X1. [deleteTask] removes every task that holds the id and keeps the
    others in their order; when no task holds the id the collection is the
    same; in both cases the collection is written to the store. *)
Theorem deleteTask_removes_every_match `{Json (list Task.t)}
    (taskId : Z) (w : World) :
  let w' := snd (TaskManager.deleteTask taskId w) in
  tasks w' = filter (fun task => Task.id task <> taskId) (tasks w) /\
  Forall (fun task => Task.id task <> taskId) (tasks w') /\
  sublist (tasks w') (tasks w) /\
  length (tasks w')
  + length (List.filter (fun task => (Task.id task =? taskId)%Z) (tasks w))
  = length (tasks w) /\
  (has_id taskId (tasks w) = false -> tasks w' = tasks w) /\
  localStorage w' = <["tasks" := JSON_stringify (tasks w')]> (localStorage w) /\
  setItem_calls w'
  = ("tasks", JSON_stringify (tasks w')) :: setItem_calls w.
Proof.
  unfold TaskManager.deleteTask, TaskManager.saveTasks. run_method.
  assert (Hfilter :
    List.filter (fun task => negb (Task.id task =? taskId)%Z) (tasks w)
    = filter (fun task => Task.id task <> taskId) (tasks w)).
  { apply List_filter_decides. intros task.
    rewrite negb_true_iff, Z.eqb_neq. reflexivity. }
  split_and!; try reflexivity.
  - exact Hfilter.
  - rewrite Hfilter. apply Forall_forall. intros task Hin.
    now apply list_elem_of_filter in Hin as [Hne _].
  - apply List_filter_sublist.
  - pose proof (filter_length (fun task => (Task.id task =? taskId)%Z)
                              (tasks w)) as Hlen.
    cbn beta in Hlen. lia.
  - intros Hnone. apply List_filter_all. intros task Hin.
    apply negb_true_iff. destruct (Z.eqb_spec (Task.id task) taskId) as [Heq|];
      [| reflexivity].
    assert (has_id taskId (tasks w) = true) as Hhas; [| congruence].
    apply has_id_elem_of, list_elem_of_fmap. exists task.
    split; [now symmetry | now apply list_elem_of_In].
Qed.

(** X2. Deleting the same id twice leaves what deleting it once leaves,
    and two deletions give the same collection and the same stored text in
    either order. *)
Theorem deleteTask_idempotent_and_commutes `{Json (list Task.t)}
    (a b : Z) (w : World) :
  let delete taskId w := snd (TaskManager.deleteTask taskId w) in
  tasks (delete a (delete a w)) = tasks (delete a w) /\
  localStorage (delete a (delete a w)) = localStorage (delete a w) /\
  tasks (delete b (delete a w)) = tasks (delete a (delete b w)) /\
  localStorage (delete b (delete a w)) = localStorage (delete a (delete b w)).
Proof.
  unfold TaskManager.deleteTask, TaskManager.saveTasks. run_method.
  rewrite List_filter_idemp, !insert_insert_eq.
  rewrite (List_filter_comm (fun task => negb (Task.id task =? b)%Z)).
  split_and!; reflexivity.
Qed.

(** ** Updating and toggling *)

Lemma assigned_default {A : Type} (given : option A) (old : A) :
  assigned given old (default old given).
Proof. destruct given; reflexivity. Qed.

(** X3. When a task holds the id, [updateTask] overwrites the first such
    task in place and returns it: each of its twelve properties is the one
    the updates carry, and the old one when the updates do not carry it (so
    the id itself is overwritten when the updates carry one); the
    collection keeps its length and every other position, and is written
    to the store. *)
Theorem updateTask_overwrites_first_match `{Json (list Task.t)}
    (taskId : Z) (updates : TaskUpdates.t) (w : World) (task : Task.t) :
  In task (tasks w) -> Task.id task = taskId ->
  let r := TaskManager.updateTask taskId updates w in
  exists (i : nat) (old new : Task.t),
    tasks w !! i = Some old /\
    Task.id old = taskId /\
    (forall j y, tasks w !! j = Some y -> j < i -> Task.id y <> taskId) /\
    fst r = Some new /\
    tasks (snd r) !! i = Some new /\
    overwritten_by updates old new /\
    length (tasks (snd r)) = length (tasks w) /\
    (forall j, j <> i -> tasks (snd r) !! j = tasks w !! j) /\
    localStorage (snd r) !! "tasks" = Some (JSON_stringify (tasks (snd r))) /\
    setItem_calls (snd r)
    = ("tasks", JSON_stringify (tasks (snd r))) :: setItem_calls w /\
    notifications (snd r) = notifications w /\
    badges (snd r) = badges w.
Proof.
  intros Hin Hid.
  destruct (list_find_id_present _ _ _ Hin Hid) as (i & x & Hfind & Hi & Hx).
  exists i, x, (TaskUpdates.assign updates x).
  unfold TaskManager.updateTask, TaskManager.saveTasks. run_method.
  rewrite Hfind. cbn.
  apply list_find_Some in Hfind as (_ & _ & Hbefore).
  split_and!; try reflexivity; try assumption.
  - apply list_lookup_insert_eq. now apply lookup_lt_Some in Hi.
  - unfold overwritten_by, TaskUpdates.assign. cbn.
    split_and!; apply assigned_default.
  - apply length_insert.
  - intros j Hj. now apply list_lookup_insert_ne.
  - apply lookup_insert_eq.
Qed.

Lemma updateTask_overwrites_first_match_witness :
  let w := sample_world [sample_task 1 "" false; sample_task 2 "" false;
                         sample_task 2 "2024-01-01" true] in
  let updates :=
    TaskUpdates.mk None (Some "Buy bread") None None (Some "high") None
                   None None None (Some true) (Some ["rye"; "wheat"]) None in
  let r := @TaskManager.updateTask (Json_blank _) 2 updates w in
  In (sample_task 2 "2024-01-01" true) (tasks w) /\
  Task.id (sample_task 2 "2024-01-01" true) = 2%Z /\
  exists (i : nat) (old new : Task.t),
    tasks w !! i = Some old /\
    Task.id old = 2%Z /\
    (forall j y, tasks w !! j = Some y -> j < i -> Task.id y <> 2%Z) /\
    fst r = Some new /\
    tasks (snd r) !! i = Some new /\
    overwritten_by updates old new /\
    length (tasks (snd r)) = length (tasks w) /\
    (forall j, j <> i -> tasks (snd r) !! j = tasks w !! j) /\
    localStorage (snd r) !! "tasks"
    = Some (@JSON_stringify _ (Json_blank _) (tasks (snd r))) /\
    setItem_calls (snd r)
    = ("tasks", @JSON_stringify _ (Json_blank _) (tasks (snd r)))
        :: setItem_calls w /\
    notifications (snd r) = notifications w /\
    badges (snd r) = badges w.
Proof.
  cbv zeta.
  assert (Hin : In (sample_task 2 "2024-01-01" true)
                   (tasks (sample_world [sample_task 1 "" false;
                                         sample_task 2 "" false;
                                         sample_task 2 "2024-01-01" true])))
    by (cbn; right; right; left; reflexivity).
  assert (Hid : Task.id (sample_task 2 "2024-01-01" true) = 2%Z)
    by reflexivity.
  split; [exact Hin |]. split; [exact Hid |].
  exact (@updateTask_overwrites_first_match (Json_blank _) 2 _ _ _ Hin Hid).
Defined.

(** The update of the second of three tasks, run: the first task with the
    id takes the title, the priority, the completion and the subtasks, and
    keeps the rest; the later task with the same id is left alone. *)
Example updateTask_sets_given_properties :
  let w := sample_world [sample_task 1 "" false; sample_task 2 "" false;
                         sample_task 2 "2024-01-01" true] in
  let updates :=
    TaskUpdates.mk None (Some "Buy bread") None None (Some "high") None
                   None None None (Some true) (Some ["rye"; "wheat"]) None in
  let old := sample_task 2 "" false in
  let new :=
    Task.mk 2 "Buy bread" (Task.description old) (Task.category old) "high"
            "" (Task.dueTime old) (Task.reminder old) (Task.repeat old)
            true ["rye"; "wheat"] (Task.createdAt old) in
  let r := @TaskManager.updateTask (Json_blank _) 2 updates w in
  fst r = Some new /\
  tasks (snd r)
  = [sample_task 1 "" false; new; sample_task 2 "2024-01-01" true].
Proof. cbv zeta. split; reflexivity. Qed.

(** X4. When no task holds the id, [toggleTask] returns [undefined] and
    leaves the page as it was, without a [setItem] call. *)
Theorem toggleTask_absent_id `{Json (list Task.t)} (taskId : Z) (w : World) :
  (forall task, In task (tasks w) -> Task.id task <> taskId) ->
  TaskManager.toggleTask taskId w = (None, w).
Proof.
  intros Habs. unfold TaskManager.toggleTask. run_method.
  now rewrite (list_find_id_absent _ _ Habs).
Qed.

Lemma toggleTask_absent_id_witness :
  (forall task, In task (tasks (sample_world [sample_task 1 "" false])) ->
                Task.id task <> 2%Z) /\
  @TaskManager.toggleTask (Json_blank _) 2
    (sample_world [sample_task 1 "" false])
  = (None, sample_world [sample_task 1 "" false]).
Proof.
  assert (Habs : forall task,
             In task (tasks (sample_world [sample_task 1 "" false])) ->
             Task.id task <> 2%Z)
    by (cbn; intros task [<- | []]; cbn; lia).
  split; [exact Habs |].
  exact (@toggleTask_absent_id (Json_blank _) 2 _ Habs).
Defined.

(** Overwriting one element changes the number of elements that pass a
    test by what the old and the new element contribute. *)
Lemma filter_length_insert {A : Type} (f : A -> bool) (l : list A)
    (i : nat) (x x' : A) :
  l !! i = Some x ->
  length (List.filter f (<[i := x']> l)) + (if f x then 1 else 0)
  = length (List.filter f l) + (if f x' then 1 else 0).
Proof.
  intros Hi.
  rewrite insert_take_drop by (eapply lookup_lt_Some, Hi).
  rewrite <- (take_drop_middle l i x Hi) at 3.
  rewrite !List.filter_app, !length_app. cbn.
  destruct (f x), (f x'); cbn; lia.
Qed.

(** X5. When a task holds the id, [toggleTask] moves exactly one task
    between the pending and the completed ones: if the task it returns is
    completed, one task fewer remains and one more is completed, and the
    other way round if it is pending; the length of the collection and the
    ids, position by position, are the same. *)
Theorem toggleTask_moves_one_task `{Json (list Task.t)}
    (taskId : Z) (w : World) (task : Task.t) :
  In task (tasks w) -> Task.id task = taskId ->
  let r := TaskManager.toggleTask taskId w in
  let w' := snd r in
  exists toggled : Task.t,
    fst r = Some toggled /\
    Task.id toggled = taskId /\
    In toggled (tasks w') /\
    length (tasks w') = length (tasks w) /\
    Task.id <$> tasks w' = Task.id <$> tasks w /\
    (Task.completed toggled = true ->
     TaskManager.getRemainingTasksCount w' + 1
     = TaskManager.getRemainingTasksCount w /\
     length (TaskManager.getCompletedTasks w')
     = length (TaskManager.getCompletedTasks w) + 1) /\
    (Task.completed toggled = false ->
     TaskManager.getRemainingTasksCount w'
     = TaskManager.getRemainingTasksCount w + 1 /\
     length (TaskManager.getCompletedTasks w') + 1
     = length (TaskManager.getCompletedTasks w)).
Proof.
  intros Hin Hid.
  destruct (list_find_id_present _ _ _ Hin Hid) as (i & x & Hfind & Hi & Hx).
  exists (Task.set_completed (negb (Task.completed x)) x).
  unfold TaskManager.toggleTask, TaskManager.saveTasks,
    TaskManager.getRemainingTasksCount, TaskManager.getPendingTasks,
    TaskManager.getCompletedTasks.
  run_method. rewrite Hfind. cbn.
  pose proof (filter_length_insert (fun t => negb (Task.completed t))
                (tasks w) i x
                (Task.set_completed (negb (Task.completed x)) x) Hi) as Hpend.
  pose proof (filter_length_insert (fun t => Task.completed t)
                (tasks w) i x
                (Task.set_completed (negb (Task.completed x)) x) Hi) as Hdone.
  cbn in Hpend, Hdone.
  split_and!.
  - reflexivity.
  - exact Hx.
  - apply list_elem_of_In, list_elem_of_lookup. exists i.
    apply list_lookup_insert_eq. eapply lookup_lt_Some, Hi.
  - apply length_insert.
  - rewrite list_fmap_insert. apply list_insert_id.
    rewrite list_lookup_fmap, Hi. reflexivity.
  - intros Hc. destruct (Task.completed x); [discriminate |]. cbn in *. lia.
  - intros Hc. destruct (Task.completed x); [| discriminate]. cbn in *. lia.
Qed.

Lemma toggleTask_moves_one_task_witness :
  let w := sample_world [sample_task 1 "" false; sample_task 2 "" false] in
  let r := @TaskManager.toggleTask (Json_blank _) 2 w in
  let w' := snd r in
  In (sample_task 2 "" false) (tasks w) /\
  Task.id (sample_task 2 "" false) = 2%Z /\
  exists toggled : Task.t,
    fst r = Some toggled /\
    Task.id toggled = 2%Z /\
    In toggled (tasks w') /\
    length (tasks w') = length (tasks w) /\
    Task.id <$> tasks w' = Task.id <$> tasks w /\
    (Task.completed toggled = true ->
     TaskManager.getRemainingTasksCount w' + 1
     = TaskManager.getRemainingTasksCount w /\
     length (TaskManager.getCompletedTasks w')
     = length (TaskManager.getCompletedTasks w) + 1) /\
    (Task.completed toggled = false ->
     TaskManager.getRemainingTasksCount w'
     = TaskManager.getRemainingTasksCount w + 1 /\
     length (TaskManager.getCompletedTasks w') + 1
     = length (TaskManager.getCompletedTasks w)).
Proof.
  cbv zeta.
  assert (Hin : In (sample_task 2 "" false)
                   (tasks (sample_world [sample_task 1 "" false;
                                         sample_task 2 "" false])))
    by (cbn; right; left; reflexivity).
  assert (Hid : Task.id (sample_task 2 "" false) = 2%Z) by reflexivity.
  split; [exact Hin |]. split; [exact Hid |].
  exact (@toggleTask_moves_one_task (Json_blank _) 2 _ _ Hin Hid).
Defined.

(** ** Sequences of calls of every kind *)

Lemma run_calls_cons `{Json (list Task.t)} call rest (w : World) :
  snd (run_calls (call :: rest) w)
  = snd (run_calls rest (snd (run_call call w))).
Proof.
  cbn [run_calls]. unfold mbind, Method_bind.
  destruct (run_call call w) as [[] w1]. reflexivity.
Qed.

(** What one call does to the collection. *)
Lemma run_call_tasks `{Json (list Task.t)} (call : TaskCall) (w : World) :
  let w' := snd (run_call call w) in
  match call with
  | CallAdd now _ _ =>
      exists task, Task.id task = now /\ tasks w' = tasks w ++ [task]
  | CallDelete taskId =>
      tasks w'
      = List.filter (fun task => negb (Task.id task =? taskId)%Z) (tasks w)
  | CallUpdate _ updates =>
      tasks w' = tasks w \/
      exists i x, tasks w !! i = Some x /\
                  tasks w' = <[i := TaskUpdates.assign updates x]> (tasks w)
  | CallToggle _ =>
      tasks w' = tasks w \/
      exists i x,
        tasks w !! i = Some x /\
        tasks w'
        = <[i := Task.set_completed (negb (Task.completed x)) x]> (tasks w)
  end.
Proof.
  destruct call as [now iso taskData | taskId | taskId updates | taskId];
    cbn zeta.
  - eexists.
    split; [| unfold run_call, TaskManager.addTask, TaskManager.saveTasks;
              run_method; reflexivity].
    reflexivity.
  - unfold run_call, TaskManager.deleteTask, TaskManager.saveTasks.
    run_method. reflexivity.
  - unfold run_call, TaskManager.updateTask, TaskManager.saveTasks.
    run_method.
    destruct (list_find _ (tasks w)) as [[i x] |] eqn:Hfind; cbn.
    + right. exists i, x. apply list_find_Some in Hfind. tauto.
    + now left.
  - unfold run_call, TaskManager.toggleTask, TaskManager.saveTasks.
    run_method.
    destruct (list_find _ (tasks w)) as [[i x] |] eqn:Hfind; cbn.
    + right. exists i, x. apply list_find_Some in Hfind. tauto.
    + now left.
Qed.

(** What one call leaves alone, and the stored text after it. *)
Lemma run_call_frame `{Json (list Task.t)} (call : TaskCall) (w : World) :
  let w' := snd (run_call call w) in
  notifications w' = notifications w /\
  badges w' = badges w /\
  (localStorage w !! "tasks" = Some (JSON_stringify (tasks w)) ->
   localStorage w' !! "tasks" = Some (JSON_stringify (tasks w'))) /\
  (forall key, key <> "tasks" -> localStorage w' !! key = localStorage w !! key).
Proof.
  destruct call as [now iso taskData | taskId | taskId updates | taskId];
    cbn zeta;
    unfold run_call, TaskManager.addTask, TaskManager.deleteTask,
      TaskManager.updateTask, TaskManager.toggleTask, TaskManager.saveTasks;
    run_method;
    try (destruct (list_find _ (tasks w)) as [[i x] |]; cbn);
    split_and!; try reflexivity; try tauto;
    try (intros; apply lookup_insert_eq);
    try (intros key Hkey; now apply lookup_insert_ne).
Qed.

(** X6. After any sequence of [addTask], [deleteTask], [updateTask] and
    [toggleTask] calls, the length of the collection is what it was, plus
    the number of additions, less the number of tasks the deletions
    removed; updates and toggles never change it. *)
Theorem length_after_calls `{Json (list Task.t)}
    (calls : list TaskCall) (w : World) :
  length (tasks (snd (run_calls calls w))) + removed calls w
  = length (tasks w) + added calls.
Proof.
  revert w. induction calls as [|call rest IH]; intros w.
  - cbn. lia.
  - rewrite run_calls_cons. cbn [removed].
    specialize (IH (snd (run_call call w))).
    pose proof (run_call_tasks call w) as Hstep. cbn zeta in Hstep.
    set (w1 := snd (run_call call w)) in *.
    unfold added in *.
    destruct call as [now iso taskData | taskId | taskId updates | taskId];
      cbn [List.filter length] in *.
    + destruct Hstep as (task & _ & Htasks).
      rewrite Htasks, length_app in IH. cbn in IH. lia.
    + pose proof (filter_length (fun task => (Task.id task =? taskId)%Z)
                                (tasks w)) as Hlen.
      cbn beta in Hlen. rewrite Hstep in IH. lia.
    + destruct Hstep as [Hsame | (i & x & _ & Hins)].
      * rewrite Hsame in IH. lia.
      * rewrite Hins, length_insert in IH. lia.
    + destruct Hstep as [Hsame | (i & x & _ & Hins)].
      * rewrite Hsame in IH. lia.
      * rewrite Hins, length_insert in IH. lia.
Qed.

(** X7. The task manager writes no other item than 'tasks' and touches
    neither the notifications nor the badges; and once the stored text is
    that of the collection, it is so after any sequence of calls. *)
Theorem calls_keep_store_in_step `{Json (list Task.t)}
    (calls : list TaskCall) (w : World) :
  localStorage w !! "tasks" = Some (JSON_stringify (tasks w)) ->
  let w' := snd (run_calls calls w) in
  localStorage w' !! "tasks" = Some (JSON_stringify (tasks w')) /\
  (forall key, key <> "tasks" -> localStorage w' !! key = localStorage w !! key) /\
  notifications w' = notifications w /\
  badges w' = badges w.
Proof.
  revert w. induction calls as [|call rest IH]; intros w Hsync.
  - cbn. tauto.
  - cbn zeta. rewrite run_calls_cons.
    destruct (run_call_frame call w) as (Hn & Hb & Hs & Hk).
    destruct (IH _ (Hs Hsync)) as (Hs' & Hk' & Hn' & Hb').
    split_and!.
    + exact Hs'.
    + intros key Hkey. rewrite Hk', Hk by exact Hkey. reflexivity.
    + congruence.
    + congruence.
Qed.

(** A page whose store holds the text of its one task, and four calls. *)
Definition sample_calls : list TaskCall :=
  [ CallAdd 1704099600002 "2024-01-01T09:00:00.002Z"
      (TaskData.mk "Call home" None None None None None None None None None);
    CallToggle 1704099600002;
    CallUpdate 7
      (TaskUpdates.mk None (Some "Buy bread") None None None None None None
                      None None None None);
    CallDelete 1 ].

Lemma calls_keep_store_in_step_witness :
  let w :=
    snd (@TaskManager.addTask (Json_blank _) 1 "2024-01-01T09:00:00.001Z"
           (TaskData.mk "Buy milk" None None None None None None None None
                        None)
           (sample_world [])) in
  let w' := snd (@run_calls (Json_blank _) sample_calls w) in
  localStorage w !! "tasks" = Some (@JSON_stringify _ (Json_blank _) (tasks w))
  /\
  localStorage w' !! "tasks"
  = Some (@JSON_stringify _ (Json_blank _) (tasks w')) /\
  (forall key, key <> "tasks" -> localStorage w' !! key = localStorage w !! key) /\
  notifications w' = notifications w /\
  badges w' = badges w.
Proof.
  cbv zeta.
  set (w := snd (@TaskManager.addTask (Json_blank _) 1
                   "2024-01-01T09:00:00.001Z"
                   (TaskData.mk "Buy milk" None None None None None None None
                                None None)
                   (sample_world []))).
  assert (Hsync : localStorage w !! "tasks"
                  = Some (@JSON_stringify _ (Json_blank _) (tasks w)))
    by (vm_compute; reflexivity).
  split; [exact Hsync |].
  exact (@calls_keep_store_in_step (Json_blank _) sample_calls w Hsync).
Defined.

(** ** Loading *)

(** X9. An item that is missing or holds the empty text is never parsed:
    the task manager then starts with the empty collection, the
    notification manager with the empty history and the settings manager
    with the defaults, whatever the JSON functions do, and nothing is
    written. *)
Theorem managers_start_from_fallbacks
    `{Json (list Task.t)} `{Json (list Notification.t)}
    `{Json (gmap string SettingValue)} (w : World) :
  (forall key, In key ["tasks"; "notifications"; "settings"] ->
               localStorage w !! key = None \/
               localStorage w !! key = Some "") ->
  TaskManager.constructor w
  = Some (mkWorld [] (notifications w) (localStorage w) (setItem_calls w)
                  (badges w)) /\
  NotificationManager.constructor w
  = Some (mkWorld (tasks w) [] (localStorage w) (setItem_calls w)
                  (badges w)) /\
  SettingsManager.constructor w = Some SettingsManager.getDefaultSettings.
Proof.
  intros Hitems.
  unfold TaskManager.constructor, TaskManager.loadTasks,
    NotificationManager.constructor, NotificationManager.loadNotifications,
    SettingsManager.constructor, SettingsManager.loadSettings, parse_or.
  run_method.
  destruct (Hitems "tasks") as [-> | ->]; [cbn; tauto | |];
    destruct (Hitems "notifications") as [-> | ->]; try (cbn; tauto);
    destruct (Hitems "settings") as [-> | ->]; try (cbn; tauto);
    cbn; split_and!; reflexivity.
Qed.

Lemma managers_start_from_fallbacks_witness :
  let w := mkWorld [] [] (<["tasks" := ""]> ∅) [] [] in
  (forall key, In key ["tasks"; "notifications"; "settings"] ->
               localStorage w !! key = None \/
               localStorage w !! key = Some "") /\
  @TaskManager.constructor (Json_blank _) w
  = Some (mkWorld [] (notifications w) (localStorage w) (setItem_calls w)
                  (badges w)) /\
  @NotificationManager.constructor (Json_blank _) w
  = Some (mkWorld (tasks w) [] (localStorage w) (setItem_calls w)
                  (badges w)) /\
  @SettingsManager.constructor (Json_blank _) w
  = Some SettingsManager.getDefaultSettings.
Proof.
  cbv zeta.
  assert (Hitems : forall key,
             In key ["tasks"; "notifications"; "settings"] ->
             localStorage (mkWorld [] [] (<["tasks" := ""]> ∅) [] []) !! key
             = None \/
             localStorage (mkWorld [] [] (<["tasks" := ""]> ∅) [] []) !! key
             = Some "").
  { intros key [<- | [<- | [<- | []]]]; vm_compute; tauto. }
  split; [exact Hitems |].
  exact (@managers_start_from_fallbacks (Json_blank _) (Json_blank _)
           (Json_blank _) _ Hitems).
Defined.

(** ** Distinct ids *)

(** X10. Starting from the empty collection, when the [addTask] calls read
    pairwise distinct clock values, the ids of the collection are pairwise
    distinct after any sequence of additions and deletions. *)
Theorem ids_stay_distinct `{Json (list Task.t)}
    (ops : list TaskOp) (w : World) :
  tasks w = [] ->
  NoDup (add_ids ops) ->
  NoDup (Task.id <$> tasks (snd (run_ops ops w))).
Proof.
  intros Hempty Hnodup.
  assert (Hgen : forall ops w,
             NoDup ((Task.id <$> tasks w) ++ add_ids ops) ->
             NoDup (Task.id <$> tasks (snd (run_ops ops w)))).
  { clear. intros ops. induction ops as [|op rest IH]; intros w Hnodup.
    - cbn in *. now rewrite app_nil_r in Hnodup.
    - rewrite run_ops_cons. apply IH. now apply run_op_ids_NoDup. }
  apply Hgen. rewrite Hempty. exact Hnodup.
Qed.

Lemma ids_stay_distinct_witness :
  tasks (sample_world []) = [] /\
  NoDup (add_ids sample_ops) /\
  NoDup (Task.id <$>
         tasks (snd (@run_ops (Json_blank _) sample_ops (sample_world [])))).
Proof.
  assert (Hempty : tasks (sample_world []) = []) by reflexivity.
  assert (Hnodup : NoDup (add_ids sample_ops))
    by (apply (bool_decide_unpack _); vm_compute; exact I).
  split; [exact Hempty |]. split; [exact Hnodup |].
  exact (@ids_stay_distinct (Json_blank _) sample_ops (sample_world [])
           Hempty Hnodup).
Defined.

(** ** Notifications *)

(** The history after one call. *)
Lemma addNotification_history `{Json (list Notification.t)}
    (now : Z) (iso message : string) (type : option string) (w : World) :
  notifications
    (snd (NotificationManager.addNotification now iso message type w))
  = take 50 (Notification.mk now message (default "info" type) iso false
               :: notifications w).
Proof.
  unfold NotificationManager.addNotification,
    NotificationManager.saveNotifications,
    NotificationManager.updateNotificationBadge.
  run_method.
  destruct (Nat.ltb_spec 50 (length (Notification.mk now message
              (default "info" type) iso false :: notifications w)))
    as [Hlong | Hshort]; cbn in *; run_method.
  - reflexivity.
  - rewrite take_ge by lia. reflexivity.
Qed.

Lemma record_all_cons `{Json (list Notification.t)} call rest (w : World) :
  snd (record_all (call :: rest) w)
  = snd (record_all rest
           (snd (NotificationManager.addNotification (rec_now call)
                   (rec_iso call) (rec_message call) (rec_type call) w))).
Proof.
  cbn [record_all]. unfold mbind, Method_bind.
  destruct (NotificationManager.addNotification _ _ _ _ w) as [[] w1].
  reflexivity.
Qed.

Lemma take_app_take {A : Type} (n : nat) (l k : list A) :
  take n (l ++ take n k) = take n (l ++ k).
Proof.
  rewrite !take_app, take_take. f_equal. f_equal. lia.
Qed.

(** X11. After one or more [addNotification] calls the history is the 50
    newest entries, newest first, of the entries recorded followed by the
    history before them; it then has at most 50 entries. *)
Theorem history_is_the_fifty_newest `{Json (list Notification.t)}
    (call : Recorded) (calls : list Recorded) (w : World) :
  let w' := snd (record_all (call :: calls) w) in
  notifications w'
  = take 50 (rev (entry_of <$> call :: calls) ++ notifications w) /\
  length (notifications w')
  = Nat.min 50 (S (length calls) + length (notifications w)).
Proof.
  cbn zeta.
  assert (Hhist : notifications (snd (record_all (call :: calls) w))
                  = take 50 (rev (entry_of <$> call :: calls)
                             ++ notifications w)).
  { revert call w. induction calls as [|next rest IH]; intros call w.
    - rewrite record_all_cons. cbn [record_all]. unfold mret, Method_ret.
      cbn [snd]. apply addNotification_history.
    - rewrite record_all_cons, IH, addNotification_history.
      fold (entry_of call). rewrite take_app_take.
      rewrite (fmap_cons entry_of call). cbn [rev].
      now rewrite <- app_assoc. }
  split; [exact Hhist |].
  rewrite Hhist, length_take, length_app, length_rev, length_fmap.
  cbn [length]. lia.
Qed.

(** X12. [addNotification] always leaves at least one unread entry, so
    every badge of the document then shows the unread count and none is
    hidden. *)
Theorem addNotification_shows_badges `{Json (list Notification.t)}
    (now : Z) (iso message : string) (type : option string) (w : World) :
  let w' :=
    snd (NotificationManager.addNotification now iso message type w) in
  1 <= NotificationManager.getUnreadCount w' /\
  NotificationManager.getUnreadCount w' <= 50 /\
  badges w'
  = List.map (fun _ => mkBadge (Some (NotificationManager.getUnreadCount w'))
                               "flex")
             (badges w) /\
  length (badges w') = length (badges w).
Proof.
  cbn zeta.
  pose proof (addNotification_history now iso message type w) as Hhist.
  assert (Hunread :
    1 <= NotificationManager.getUnreadCount
           (snd (NotificationManager.addNotification now iso message type w))
    <= 50).
  { unfold NotificationManager.getUnreadCount. rewrite Hhist. cbn.
    pose proof (filter_length_le
                  (fun n => negb (Notification.read n))
                  (take 49 (notifications w))) as Hle.
    rewrite length_take in Hle. lia. }
  assert (Hbadges :
    badges (snd (NotificationManager.addNotification now iso message type w))
    = List.map
        (fun _ =>
           mkBadge
             (Some (NotificationManager.getUnreadCount
                      (snd (NotificationManager.addNotification
                              now iso message type w))))
             (if (0 <? NotificationManager.getUnreadCount
                         (snd (NotificationManager.addNotification
                                 now iso message type w)))%nat
              then "flex" else "none"))
        (badges w)).
  { unfold NotificationManager.addNotification,
      NotificationManager.saveNotifications,
      NotificationManager.updateNotificationBadge,
      NotificationManager.getUnreadCount.
    run_method.
    destruct (50 <? _)%nat; run_method; reflexivity. }
  split_and!; try lia.
  - rewrite Hbadges.
    destruct (Nat.ltb_spec 0 (NotificationManager.getUnreadCount
       (snd (NotificationManager.addNotification now iso message type w))));
      [reflexivity | lia].
  - rewrite Hbadges. apply length_map.
Qed.

(** X13. When an entry of the history holds the id, [markAsRead] sets
    [read] on the first such entry and on no other: that entry keeps its
    id, message, type and timestamp, every other position and the length
    of the history are unchanged, and the unread count goes down by one
    when the entry was unread.  The history is then written to the store
    under [notifications] and every badge shows the new unread count,
    hidden when it is zero; the tasks are not touched, and a second call
    with the same id leaves the history as it is.  When no entry holds the
    id the page is left as it was, without a [setItem] call. *)
Theorem markAsRead_marks_first_match `{Json (list Notification.t)}
    (id : Z) (w : World) :
  let w' := snd (NotificationManager.markAsRead id w) in
  ((forall n, In n (notifications w) -> Notification.id n <> id) ->
   NotificationManager.markAsRead id w = (tt, w)) /\
  (forall n, In n (notifications w) -> Notification.id n = id ->
   exists (i : nat) (old new : Notification.t),
     notifications w !! i = Some old /\
     Notification.id old = id /\
     (forall j m, notifications w !! j = Some m -> j < i ->
                  Notification.id m <> id) /\
     notifications w' !! i = Some new /\
     Notification.read new = true /\
     Notification.id new = id /\
     Notification.message new = Notification.message old /\
     Notification.type new = Notification.type old /\
     Notification.timestamp new = Notification.timestamp old /\
     length (notifications w') = length (notifications w) /\
     (forall j, j <> i -> notifications w' !! j = notifications w !! j) /\
     NotificationManager.getUnreadCount w
     = NotificationManager.getUnreadCount w'
       + (if Notification.read old then 0 else 1) /\
     localStorage w' !! "notifications"
     = Some (JSON_stringify (notifications w')) /\
     setItem_calls w'
     = ("notifications", JSON_stringify (notifications w'))
         :: setItem_calls w /\
     length (badges w') = length (badges w) /\
     (forall badge, In badge (badges w') ->
        textContent badge = Some (NotificationManager.getUnreadCount w') /\
        display badge
        = if (0 <? NotificationManager.getUnreadCount w')%nat
          then "flex" else "none") /\
     tasks w' = tasks w /\
     notifications (snd (NotificationManager.markAsRead id w'))
     = notifications w').
Proof.
  cbn zeta. split.
  - intros Habs.
    unfold NotificationManager.markAsRead. run_method.
    assert (Hnone : list_find (fun n => Notification.id n = id)
                              (notifications w) = None).
    { apply list_find_None, Forall_forall. intros n Hn.
      apply Habs, list_elem_of_In, Hn. }
    now rewrite Hnone.
  - intros n Hn Hid.
    assert (Hsome : exists i x,
               list_find (fun n => Notification.id n = id) (notifications w)
               = Some (i, x)).
    { destruct (list_find (fun n => Notification.id n = id)
                          (notifications w)) as [[i x] |] eqn:Hfind;
        [now exists i, x |].
      exfalso. apply list_find_None in Hfind.
      rewrite Forall_forall in Hfind.
      apply (Hfind n); [now apply list_elem_of_In | exact Hid]. }
    destruct Hsome as (i & x & Hfind).
    pose proof Hfind as Hfind'.
    apply list_find_Some in Hfind' as (Hi & Hx & Hbefore).
    pose proof (filter_length_insert (fun n => negb (Notification.read n))
                  (notifications w) i x (Notification.set_read true x) Hi)
      as Hcount.
    cbn in Hcount.
    exists i, x, (Notification.set_read true x).
    assert (Hrun : exists w1,
      NotificationManager.markAsRead id w = (tt, w1) /\
      tasks w1 = tasks w /\
      notifications w1
      = <[i := Notification.set_read true x]> (notifications w) /\
      localStorage w1
      = <["notifications" := JSON_stringify (notifications w1)]>
          (localStorage w) /\
      setItem_calls w1
      = ("notifications", JSON_stringify (notifications w1))
          :: setItem_calls w /\
      badges w1
      = List.map
          (fun _ =>
             mkBadge (Some (NotificationManager.getUnreadCount w1))
                     (if (0 <? NotificationManager.getUnreadCount w1)%nat
                      then "flex" else "none"))
          (badges w)).
    { eexists. split.
      - unfold NotificationManager.markAsRead,
          NotificationManager.saveNotifications,
          NotificationManager.updateNotificationBadge.
        run_method. rewrite Hfind. reflexivity.
      - split_and!; reflexivity. }
    destruct Hrun as (w1 & -> & Htasks & Hhistory & Hstore & Hcalls & Hbadges).
    cbn [snd]. unfold NotificationManager.getUnreadCount in *.
    rewrite Hstore, Hcalls, Hbadges, Hhistory.
    split_and!; try reflexivity; try assumption.
    + apply list_lookup_insert_eq. now apply lookup_lt_Some in Hi.
    + apply length_insert.
    + intros j Hj. now apply list_lookup_insert_ne.
    + destruct (Notification.read x); cbn in Hcount; lia.
    + apply lookup_insert_eq.
    + apply length_map.
    + intros badge Hbadge. apply in_map_iff in Hbadge as (_ & <- & _).
      split; reflexivity.
    + unfold NotificationManager.markAsRead,
        NotificationManager.saveNotifications,
        NotificationManager.updateNotificationBadge.
      run_method. rewrite Hhistory.
      rewrite (list_find_insert_found _ _ i x
                 (Notification.set_read true x) Hfind) by exact Hx.
      cbn. now rewrite list_insert_insert_eq.
Qed.

(** A history of three entries, the last two with the same id, shown by
    two badges: marking that id sets [read] on the second entry only, the
    badges go from 3 to 2 and the history is stored. *)
Example markAsRead_first_of_two :
  let entry (id : Z) read :=
    Notification.mk id "Task added!" "success" "2024-01-01T09:00:00.000Z"
                    read in
  let w := mkWorld [] [entry 3%Z false; entry 2%Z false; entry 2%Z false]
                   ∅ []
                   [mkBadge (Some 3) "flex"; mkBadge (Some 3) "flex"] in
  let w' := snd (@NotificationManager.markAsRead (Json_blank _) 2 w) in
  notifications w'
  = [entry 3%Z false; entry 2%Z true; entry 2%Z false] /\
  NotificationManager.getUnreadCount w' = 2 /\
  badges w' = [mkBadge (Some 2) "flex"; mkBadge (Some 2) "flex"] /\
  setItem_calls w'
  = [("notifications",
      @JSON_stringify _ (Json_blank _) (notifications w'))].
Proof. cbv zeta. split_and!; reflexivity. Qed.

(** ** The two writers of the badge *)

(** X14. The page and the notification manager write different counts to
    the badge.  A refresh by the manager after one by the page leaves what
    the manager alone leaves: every badge shows the unread count.  A
    refresh by the page after one by the manager leaves the number of
    remaining tasks on the first badge and the unread count on the others.
    Neither touches the tasks, the history or the store. *)
Theorem badge_shows_the_last_writer (w : World) :
  let by_manager w := snd (NotificationManager.updateNotificationBadge w) in
  let by_page w := snd (Page.updateNotificationBadge w) in
  let unread :=
    mkBadge (Some (NotificationManager.getUnreadCount w))
            (if (0 <? NotificationManager.getUnreadCount w)%nat then "flex"
             else "none") in
  let remaining :=
    mkBadge (Some (TaskManager.getRemainingTasksCount w))
            (if (TaskManager.getRemainingTasksCount w =? 0)%nat then "none"
             else "flex") in
  badges (by_manager w) = List.map (fun _ => unread) (badges w) /\
  badges (by_manager (by_page w)) = badges (by_manager w) /\
  badges (by_page (by_manager w))
  = match badges w with
    | [] => []
    | _ :: others => remaining :: List.map (fun _ => unread) others
    end /\
  (tasks (by_page (by_manager w)), notifications (by_page (by_manager w)),
   localStorage (by_page (by_manager w)),
   setItem_calls (by_page (by_manager w)))
  = (tasks w, notifications w, localStorage w, setItem_calls w) /\
  (tasks (by_manager (by_page w)), notifications (by_manager (by_page w)),
   localStorage (by_manager (by_page w)),
   setItem_calls (by_manager (by_page w)))
  = (tasks w, notifications w, localStorage w, setItem_calls w).
Proof.
  cbn zeta.
  unfold NotificationManager.updateNotificationBadge,
    Page.updateNotificationBadge, NotificationManager.getUnreadCount,
    TaskManager.getRemainingTasksCount, TaskManager.getPendingTasks.
  run_method.
  destruct (badges w) as [|first others] eqn:Hbadges; cbn.
  - rewrite Hbadges. cbn. split_and!; reflexivity.
  - split_and!; reflexivity.
Qed.

(** ** The views by due date *)

Lemma lex_lt_irrefl (x : string) : ~ lex_lt x x.
Proof.
  intros Hlt. apply string_lt_lex, string_lt_compare in Hlt.
  pose proof (String.compare_antisym x x) as Hanti.
  rewrite Hlt in Hanti. discriminate.
Qed.

Lemma lex_lt_trichotomy (x y : string) : lex_lt x y \/ x = y \/ lex_lt y x.
Proof.
  destruct (String.compare x y) eqn:Hcmp.
  - right. left. exact (String.compare_eq_iff x y Hcmp).
  - left. now apply string_lt_lex, string_lt_compare.
  - right. right. apply string_lt_lex, string_lt_compare.
    rewrite String.compare_antisym, Hcmp. reflexivity.
Qed.

Lemma lex_lt_asym (x y : string) : lex_lt x y -> ~ lex_lt y x.
Proof.
  intros Hxy Hyx.
  apply string_lt_lex, string_lt_compare in Hxy, Hyx.
  rewrite String.compare_antisym, Hyx in Hxy. discriminate.
Qed.

(** X15. No task is both due today and upcoming.  A task of the collection
    is in exactly one of three cases: due today, upcoming, or in neither
    view because its due date comes before today's date as a string; a
    task without due date is never upcoming, and is due today only if
    today's date is the empty string. *)
Theorem due_views_are_disjoint (iso : string) (w : World) :
  let today := JS.split_first "T" iso in
  let due_today task := In task (TaskManager.getTodayTasks iso w) in
  let upcoming task := In task (TaskManager.getUpcomingTasks iso w) in
  (forall task, due_today task -> ~ upcoming task) /\
  (forall task, In task (tasks w) ->
     (due_today task /\ ~ upcoming task /\ Task.dueDate task = today) \/
     (upcoming task /\ ~ due_today task /\ lex_lt today (Task.dueDate task)) \/
     (~ due_today task /\ ~ upcoming task /\
      lex_lt (Task.dueDate task) today)) /\
  (forall task, Task.dueDate task = "" ->
     ~ upcoming task /\ (due_today task -> today = "")).
Proof.
  cbn zeta.
  assert (Htoday : forall task,
             In task (TaskManager.getTodayTasks iso w) <->
             In task (tasks w) /\ Task.dueDate task = JS.split_first "T" iso).
  { intros task. unfold TaskManager.getTodayTasks, JS.string_strict_eq.
    cbn zeta. rewrite filter_In, String.eqb_eq. reflexivity. }
  assert (Hupcoming : forall task,
             In task (TaskManager.getUpcomingTasks iso w) <->
             In task (tasks w) /\
             lex_lt (JS.split_first "T" iso) (Task.dueDate task)).
  { intros task. unfold TaskManager.getUpcomingTasks, JS.string_gt.
    cbn zeta. rewrite filter_In, string_lt_lex. reflexivity. }
  split_and!.
  - intros task [_ Heq]%Htoday [_ Hlt]%Hupcoming.
    rewrite Heq in Hlt. now apply lex_lt_irrefl in Hlt.
  - intros task Hin. rewrite !Htoday, !Hupcoming.
    destruct (lex_lt_trichotomy (Task.dueDate task) (JS.split_first "T" iso))
      as [Hlt | [Heq | Hgt]].
    + right. right. split; [| split; [| exact Hlt]].
      * intros [_ Heq]. rewrite Heq in Hlt. now apply lex_lt_irrefl in Hlt.
      * intros [_ Hgt]. now apply lex_lt_asym in Hgt.
    + left. split; [tauto |]. split; [| exact Heq].
      intros [_ Hgt]. rewrite Heq in Hgt. now apply lex_lt_irrefl in Hgt.
    + right. left. split; [tauto |]. split; [| exact Hgt].
      intros [_ Heq]. rewrite Heq in Hgt. now apply lex_lt_irrefl in Hgt.
  - intros task Hempty. rewrite Htoday, Hupcoming, Hempty. split.
    + intros [_ Hlt]. inversion Hlt.
    + intros [_ Heq]. now symmetry.
Qed.

(** X16. What [renderTaskList] lists is never empty and holds pending
    tasks only, in the order of the pending tasks; for a filter other than
    'today' and 'upcoming' (a missing one is 'all') it is all the pending
    tasks.  The empty state reports 'No pending tasks. Great job!' for
    'all', 'No tasks for today!' for 'today' and 'No upcoming tasks!' for
    every other filter, an unknown one too. *)
Theorem renderTaskList_lists_pending_tasks
    (filter : option string) (iso : string) (w : World) :
  let chosen := default "all" filter in
  (forall items, Page.renderTaskList filter iso w = Page.Items items ->
     items <> [] /\
     Forall (fun task => Task.completed task = false) items /\
     sublist items (TaskManager.getPendingTasks w) /\
     (chosen <> "today" -> chosen <> "upcoming" ->
      items = TaskManager.getPendingTasks w)) /\
  (forall message,
     Page.renderTaskList filter iso w = Page.EmptyState message ->
     (chosen <> "today" -> chosen <> "upcoming" ->
      TaskManager.getRemainingTasksCount w = 0) /\
     (chosen = "all" -> message = "No pending tasks. Great job!") /\
     (chosen = "today" -> message = "No tasks for today!") /\
     (chosen <> "all" -> chosen <> "today" ->
      message = "No upcoming tasks!")).
Proof.
  cbn zeta. unfold Page.renderTaskList, JS.string_strict_eq.
  set (chosen := default "all" filter).
  set (selected :=
         if String.eqb chosen "today" then TaskManager.getTodayTasks iso w
         else if String.eqb chosen "upcoming"
              then TaskManager.getUpcomingTasks iso w
         else TaskManager.getAllTasks w).
  cbn zeta.
  assert (Hsub : sublist
            (List.filter (fun task => negb (Task.completed task)) selected)
            (TaskManager.getPendingTasks w)).
  { unfold selected, TaskManager.getPendingTasks, TaskManager.getTodayTasks,
      TaskManager.getUpcomingTasks, TaskManager.getAllTasks.
    cbn zeta.
    destruct (String.eqb chosen "today"); [| destruct (String.eqb chosen "upcoming")];
      try (rewrite List_filter_comm; apply List_filter_sublist).
    reflexivity. }
  assert (Hall : chosen <> "today" -> chosen <> "upcoming" ->
                 selected = tasks w).
  { intros H1%String.eqb_neq H2%String.eqb_neq. unfold selected.
    now rewrite H1, H2. }
  destruct (Nat.eqb_spec
              (length (List.filter (fun task => negb (Task.completed task))
                                   selected)) 0) as [Hzero | Hpos].
  - split; [discriminate |].
    intros message [= <-]. split_and!.
    + intros H1 H2. unfold TaskManager.getRemainingTasksCount,
        TaskManager.getPendingTasks. now rewrite <- (Hall H1 H2).
    + intros ->. reflexivity.
    + intros ->. reflexivity.
    + intros H1%String.eqb_neq H2%String.eqb_neq. now rewrite H1, H2.
  - split; [| discriminate].
    intros items [= <-]. split_and!.
    + intros Hnil. rewrite Hnil in Hpos. now apply Hpos.
    + apply Forall_forall. intros task Hin.
      apply list_elem_of_In, filter_In in Hin as [_ Hc].
      now apply negb_true_iff.
    + exact Hsub.
    + intros H1 H2. unfold TaskManager.getPendingTasks.
      now rewrite (Hall H1 H2).
Qed.

(** ** Statistics of the user *)

(** X18. [updateStats] sets the two counts of the user from the task
    manager, so that the completed ones are at most the total and the
    difference is the number of remaining tasks; the other properties of
    the user, the success rate among them, are left as they were; the user
    is written to the store under 'user' and the tasks are not touched. *)
Theorem updateStats_counts_tasks `{Json User.t} (user : User.t) (w : World) :
  let r := UserManager.updateStats user w in
  let user' := fst r in
  User.totalTasks user' = Z.of_nat (length (TaskManager.getAllTasks w)) /\
  User.completedTasks user'
  = Z.of_nat (length (TaskManager.getCompletedTasks w)) /\
  (0 <= User.completedTasks user' <= User.totalTasks user')%Z /\
  (User.totalTasks user' - User.completedTasks user')%Z
  = Z.of_nat (TaskManager.getRemainingTasksCount w) /\
  (User.name user', User.email user', User.avatar user',
   User.joinDate user', User.streak user', User.successRate user')
  = (User.name user, User.email user, User.avatar user,
     User.joinDate user, User.streak user, User.successRate user) /\
  tasks (snd r) = tasks w /\
  notifications (snd r) = notifications w /\
  localStorage (snd r) = <["user" := JSON_stringify user']> (localStorage w).
Proof.
  cbn zeta. unfold UserManager.updateStats, UserManager.saveUser. run_method.
  unfold TaskManager.getAllTasks, TaskManager.getRemainingTasksCount,
    TaskManager.getPendingTasks, TaskManager.getCompletedTasks.
  pose proof (filter_length (fun t => Task.completed t) (tasks w)) as Hlen.
  cbn beta in Hlen.
  cbn. split_and!; try reflexivity; lia.
Qed.

(** ** Adding and the views by priority and category *)

(** X19. A task added without priority, or with the empty one, is the last
    of the tasks of priority 'medium'; one added without category is the
    last of the tasks of the empty category. *)
Theorem added_task_is_listed_by_default `{Json (list Task.t)}
    (now : Z) (iso : string) (taskData : TaskData.t) (w : World) :
  let r := TaskManager.addTask now iso taskData w in
  (TaskData.priority taskData = None \/
   TaskData.priority taskData = Some "" ->
   TaskManager.getTasksByPriority "medium" (snd r)
   = TaskManager.getTasksByPriority "medium" w ++ [fst r]) /\
  (TaskData.category taskData = None \/
   TaskData.category taskData = Some "" ->
   TaskManager.getTasksByCategory "" (snd r)
   = TaskManager.getTasksByCategory "" w ++ [fst r]) /\
  (forall priority,
     TaskData.priority taskData = Some priority -> priority <> "" ->
     TaskManager.getTasksByPriority priority (snd r)
     = TaskManager.getTasksByPriority priority w ++ [fst r]).
Proof.
  cbn zeta.
  unfold TaskManager.getTasksByPriority, TaskManager.getTasksByCategory,
    TaskManager.addTask, TaskManager.saveTasks, JS.string_strict_eq.
  run_method. rewrite !List.filter_app. cbn [List.filter].
  split_and!.
  - intros [-> | ->]; reflexivity.
  - intros [-> | ->]; reflexivity.
  - intros priority -> Hne.
    destruct priority as [|c p]; [contradiction |].
    cbn [JS.or_else JS.truthy].
    rewrite List.filter_app. cbn [List.filter Task.priority].
    now rewrite String.eqb_refl.
Qed.

(** ** The session gate *)

Lemma append_snoc (acc : string) (c : ascii) (s : string) :
  (acc +:+ String c EmptyString) +:+ s = acc +:+ String c s.
Proof.
  induction acc as [|a acc IH]; [reflexivity |].
  change (String a ((acc +:+ String c EmptyString) +:+ s)
          = String a (acc +:+ String c s)).
  now rewrite IH.
Qed.

Lemma split_pop_no_sep (sep : ascii) (acc s : string) :
  (forall c, In c (list_ascii_of_string s) -> c <> sep) ->
  Page.split_pop sep acc s = acc +:+ s.
Proof.
  revert acc. induction s as [|c s IH]; intros acc Hno.
  - cbn. induction acc as [|a acc IHacc]; [reflexivity |].
    change (String a acc = String a (acc +:+ "")). now rewrite <- IHacc.
  - cbn [Page.split_pop].
    destruct (Ascii.eqb_spec c sep) as [-> | _].
    + exfalso. apply (Hno sep); [now left | reflexivity].
    + rewrite IH by (intros d Hd; apply Hno; now right).
      apply append_snoc.
Qed.

Lemma split_pop_after (sep : ascii) (acc dir file : string) :
  Page.split_pop sep acc (dir +:+ String sep file)
  = Page.split_pop sep EmptyString file.
Proof.
  revert acc. induction dir as [|c dir IH]; intros acc.
  - change (Page.split_pop sep acc (String sep file)
            = Page.split_pop sep "" file).
    cbn [Page.split_pop]. now rewrite Ascii.eqb_refl.
  - change (Page.split_pop sep acc (String c (dir +:+ String sep file))
            = Page.split_pop sep "" file).
    cbn [Page.split_pop]. destruct (Ascii.eqb c sep); apply IH.
Qed.

(** X20. [checkAuthentication] looks at the last segment of the path only.
    On login.html it returns [undefined] and sends the window nowhere,
    whatever the session holds.  On any other page, and on a path that ends
    in a slash, it returns [true] when the session flag is a non-empty
    text, and otherwise returns [false] and sends the window to
    login.html. *)
Theorem checkAuthentication_by_last_segment
    (isLoggedIn : option string) (dir file : string) :
  (forall c, In c (list_ascii_of_string file) -> c <> "/"%char) ->
  Page.checkAuthentication isLoggedIn (dir +:+ String "/" file)
  = if String.eqb file "login.html" then (None, None)
    else match isLoggedIn with
         | Some (String _ _) => (Some true, None)
         | _ => (Some false, Some "login.html")
         end.
Proof.
  intros Hfile. unfold Page.checkAuthentication, JS.string_strict_eq.
  rewrite split_pop_after, split_pop_no_sep by exact Hfile.
  change ("" +:+ file) with file.
  destruct file as [|c file]; cbn [JS.or_else JS.truthy].
  - cbn. destruct isLoggedIn as [[|] |]; reflexivity.
  - destruct (String.eqb (String c file) "login.html"); [reflexivity |].
    change (String.eqb (String c file) "") with false. cbn [orb].
    destruct isLoggedIn as [[|] |]; reflexivity.
Qed.

Lemma checkAuthentication_by_last_segment_witness :
  (forall c, In c (list_ascii_of_string "login.html") -> c <> "/"%char) /\
  Page.checkAuthentication (Some "true") ("/app" +:+ String "/" "login.html")
  = if String.eqb "login.html" "login.html" then (None, None)
    else (Some true, None).
Proof.
  assert (Hfile : forall c, In c (list_ascii_of_string "login.html") ->
                            c <> "/"%char).
  { cbn. intros c Hc.
    repeat (destruct Hc as [<- | Hc]; [discriminate |]). destruct Hc. }
  split; [exact Hfile |].
  exact (checkAuthentication_by_last_segment (Some "true") "/app"
           "login.html" Hfile).
Defined.

(** ** The percentage is a whole number *)

Lemma completion_percentage_nearest_integer_witness :
  let w := sample_world [sample_task 1 "" false; sample_task 2 "" true;
                         sample_task 3 "" false] in
  length (tasks w) <= 200 /\
  nearest_percentage (length (TaskManager.getCompletedTasks w))
                     (length (tasks w))
                     (TaskManager.getCompletionPercentage w) = true.
Proof.
  cbv zeta.
  assert (Hbound :
    length (tasks (sample_world [sample_task 1 "" false;
                                 sample_task 2 "" true;
                                 sample_task 3 "" false])) <= 200)
    by (cbn; lia).
  split; [exact Hbound |].
  exact (completion_percentage_nearest_integer _ Hbound).
Defined.
